(** * aws-mlops-framework: Lambda handlers, IAM statements and API fixtures

    A shallow embedding of the Python sources

    - [source/lambdas/pipeline_orchestration/tests/fixtures/orchestrator_fixtures.py]
    - [source/lib/blueprints/byom/pipeline_definitions/iam_policies.py]
    - [source/lib/blueprints/byom/pipeline_definitions/deploy_actions.py]
    - [source/lambdas/solution_helper/lambda_function.py]
    - [source/lib/blueprints/byom/lambdas/inference/main.py]

    Python dictionaries are finite maps ([gmap]), Python exceptions are the
    [Raise] branch of [result], and code that mutates objects or talks to
    the outside world runs in the state-and-exception monad [M]. *)

From stdpp Require Import gmap strings list fin_maps pretty.

#[local] Set Warnings "-register-all,-clear-no-such-hyp".

(** ** Python exceptions and results *)

(** The instances of Python's [Exception] class the modelled code can meet.
    [RequestException] stands for [requests.exceptions.RequestException]
    and its subclasses, [OtherException] for every remaining subclass of
    [Exception]. *)
Inductive exn :=
  | KeyError (key : string)
  | TypeError
  | AttributeError
  | RequestException
  | OtherException (name : string).

Inductive result (A : Type) :=
  | Ok (a : A)
  | Raise (e : exn).
Arguments Ok {A} a.
Arguments Raise {A} e.

#[global] Instance result_ret : MRet result := fun _ a => Ok a.
#[global] Instance result_bind : MBind result := fun _ _ k r =>
  match r with
  | Ok a => k a
  | Raise e => Raise e
  end.

(** [d[k]] on a dictionary with string keys. *)
Definition getitem {V} (d : gmap string V) (k : string) : result V :=
  match d !! k with
  | Some v => Ok v
  | None => Raise (KeyError k)
  end.

(** [x in xs] for a list of string literals. *)
Definition str_in (x : string) (xs : list string) : bool :=
  existsb (String.eqb x) xs.

(** ** The orchestrator's API fixtures *)

Module OrchestratorFixtures.

(** A field of an API event is a string or, for a multi-account
    deployment, a dictionary from stage name to string. *)
Inductive field :=
  | Str (s : string)
  | PerStage (stages : gmap string string).

(** The [autouse] fixture: every test starts after these assignments to
    [os.environ]. *)
Definition mock_env_variables (environ : gmap string string) : gmap string string :=
  let environ := <["BLUEPRINT_BUCKET_URL" := "testurl"]> environ in
  let environ := <["NOTIFICATION_EMAIL" := "test@example.com"]> environ in
  let environ := <["ASSETS_BUCKET" := "testassetsbucket"]> environ in
  let environ := <["BLUEPRINT_BUCKET" := "testbucket"]> environ in
  let environ := <["PIPELINE_STACK_NAME" := "mlops-pipeline"]> environ in
  let environ := <["CFN_ROLE_ARN" := "arn:aws:role:region:account:action"]> environ in
  let environ := <["IS_MULTI_ACCOUNT" := "False"]> environ in
  let environ := <["REGION" := "us-east-1"]> environ in
  let environ := <["ECR_REPO_ARN" := "test-ecr-repo"]> environ in
  let environ := <["DEV_ACCOUNT_ID" := "dev_account_id"]> environ in
  let environ := <["STAGING_ACCOUNT_ID" := "staging_account_id"]> environ in
  let environ := <["PROD_ACCOUNT_ID" := "prod_account_id"]> environ in
  let environ := <["DEV_ORG_ID" := "dev_org_id"]> environ in
  let environ := <["STAGING_ORG_ID" := "staging_org_id"]> environ in
  let environ := <["PROD_ORG_ID" := "prod_org_id"]> environ in
  let environ := <["MODELARTIFACTLOCATION" := "model.tar.gz"]> environ in
  let environ := <["INSTANCETYPE" := "ml.m5.large"]> environ in
  let environ := <["INFERENCEDATA" := "inference/data.csv"]> environ in
  let environ := <["BATCHOUTPUT" := "bucket/output"]> environ in
  let environ := <["DATACAPTURE" := "bucket/datacapture"]> environ in
  let environ :=
    <["TRAININGDATA" := "model_monitor/training-dataset-with-header.csv"]> environ in
  let environ :=
    <["BASELINEOUTPUT" := "testbucket/model_monitor/baseline_output2"]> environ in
  let environ := <["SCHEDULEEXP" := "cron(0 * ? * * *)"]> environ in
  let environ := <["CUSTOMIMAGE" := "custom/custom_image.zip"]> environ in
  let environ := <["TESTFILE" := "testfile.zip"]> environ in
  let environ := <["USE_MODEL_REGISTRY" := "No"]> environ in
  let environ := <["IS_DELEGATED_ADMIN" := "No"]> environ in
  let environ := <["MODEL_PACKAGE_GROUP_NAME" := "xgboost"]> environ in
  <["MODEL_PACKAGE_NAME" := "arn:aws:sagemaker:*:*:model-package/xgboost/1"]> environ.

(** [str(is_multi)] for a boolean. *)
Definition str_of_bool (b : bool) : string := if b then "True" else "False".

(** [{"dev": d, "staging": s, "prod": p}] *)
Definition stages (d s p : string) : field :=
  PerStage (<["prod" := p]> (<["staging" := s]> (<["dev" := d]> ∅))).

(** [{"True": multi, "False": single}] *)
Definition by_is_multi (multi single : field) : gmap string field :=
  <["False" := single]> (<["True" := multi]> ∅).

(** [_api_byom_event(pipeline_type, is_multi=False, endpint_name_provided=False)].
    The reads of [os.environ] come in the order Python evaluates them. *)
Definition api_byom_event (environ : gmap string string)
    (pipeline_type : string) (is_multi endpint_name_provided : bool)
    : result (gmap string field) :=
  i_dev ← getitem environ "INSTANCETYPE";
  i_staging ← getitem environ "INSTANCETYPE";
  i_prod ← getitem environ "INSTANCETYPE";
  i_single ← getitem environ "INSTANCETYPE";
  batchoutput ← getitem environ "BATCHOUTPUT";
  datacapture ← getitem environ "DATACAPTURE";
  let maping : gmap string (gmap string field) :=
    <["endpoint_name" :=
        by_is_multi (stages "dev-endpoint" "staging-endpoint" "prod-endpoint")
                    (Str "test-endpoint")]>
    (<["data_capture_location" :=
        by_is_multi (stages "bucket/dev_datacapture" "bucket/staging_datacapture"
                            "bucket/prod_datacapture")
                    (Str datacapture)]>
    (<["batch_job_output_location" :=
        by_is_multi (stages "bucket/dev_output" "bucket/staging_output"
                            "bucket/prod_output")
                    (Str batchoutput)]>
    (<["inference_instance" :=
        by_is_multi (stages i_dev i_staging i_prod) (Str i_single)]> ∅))) in
  modelartifactlocation ← getitem environ "MODELARTIFACTLOCATION";
  model_package_name ← getitem environ "MODEL_PACKAGE_NAME";
  let event : gmap string field :=
    <["model_package_name" := Str model_package_name]>
    (<["model_artifact_location" := Str modelartifactlocation]>
    (<["model_name" := Str "testmodel"]>
    (<["pipeline_type" := Str pipeline_type]> ∅))) in
  m ← getitem maping "inference_instance";
  v ← getitem m (str_of_bool is_multi);
  let event := <["inference_instance" := v]> event in
  event ←
    (if str_in pipeline_type ["byom_batch_builtin"; "byom_batch_custom"] then
       inferencedata ← getitem environ "INFERENCEDATA";
       let event := <["batch_inference_data" := Str inferencedata]> event in
       m ← getitem maping "batch_job_output_location";
       v ← getitem m (str_of_bool is_multi);
       Ok (<["batch_job_output_location" := v]> event)
     else Ok event);
  event ←
    (if str_in pipeline_type ["byom_realtime_builtin"; "byom_realtime_custom"] then
       m ← getitem maping "data_capture_location";
       v ← getitem m (str_of_bool is_multi);
       let event := <["data_capture_location" := v]> event in
       if endpint_name_provided then
         m ← getitem maping "endpoint_name";
         v ← getitem m (str_of_bool is_multi);
         Ok (<["endpoint_name" := v]> event)
       else Ok event
     else Ok event);
  let event :=
    if str_in pipeline_type ["byom_realtime_builtin"; "byom_batch_builtin"] then
      <["model_framework_version" := Str "0.90-1"]>
        (<["model_framework" := Str "xgboost"]> event)
    else if str_in pipeline_type ["byom_realtime_custom"; "byom_batch_custom"] then
      <["custom_image_uri" := Str "custom-image-uri"]> event
    else event in
  Ok event.

(** [_required_api_byom_realtime_builtin(use_model_registry)] *)
Definition required_api_byom_realtime_builtin (use_model_registry : string)
    : list string :=
  let required_keys :=
    ["pipeline_type"; "model_name"; "inference_instance"; "data_capture_location"] in
  if String.eqb use_model_registry "Yes" then
    required_keys ++ ["model_package_name"]
  else
    required_keys ++
      ["model_framework"; "model_framework_version"; "model_artifact_location"].

(** [_required_api_keys_model_monitor(monitoring_type, problem_type=None)];
    [problem_type] is [None] when the argument is left out. *)
Definition required_api_keys_model_monitor
    (monitoring_type : string) (problem_type : option string) : list string :=
  let common_keys :=
    ["pipeline_type"; "model_name"; "endpoint_name"; "baseline_data";
     "baseline_job_output_location"; "data_capture_location";
     "monitoring_output_location"; "schedule_expression";
     "monitor_max_runtime_seconds"; "instance_type"; "instance_volume_size"] in
  if negb (String.eqb monitoring_type "ModelQuality") then common_keys
  else
    let common_model_keys :=
      ["baseline_inference_attribute"; "baseline_ground_truth_attribute";
       "problem_type"; "monitor_ground_truth_input"] in
    let common_model_keys :=
      if match problem_type with
         | Some p => str_in p ["Regression"; "MulticlassClassification"]
         | None => false
         end
      then common_model_keys ++ ["monitor_inference_attribute"]
      else common_model_keys ++
             ["monitor_probability_attribute"; "probability_threshold_attribute";
              "baseline_probability_attribute"] in
    common_keys ++ common_model_keys.

End OrchestratorFixtures.

(** ** IAM policy statements of the BYOM pipelines *)

Module IamPolicies.

(** The CDK objects the function reads: a template parameter, whose
    [value_as_string] is the value it is deployed with, and a template
    condition, known by its logical id. *)
Record CfnParameter := { value_as_string : string }.
Record CfnCondition := { logical_id : string }.

(** [iam.PolicyStatement(actions=..., resources=...)] *)
Record PolicyStatement := {
  actions : list string;
  resources : list string;
}.

(** [iam.Role(scope, id, assumed_by=iam.ServicePrincipal(service), description=...)],
    with the ARN the role resolves to. *)
Record Role := {
  role_id : string;
  assumed_by : string;
  description : string;
  role_arn : string;
}.

Section deployment.

(** What [core.Aws.PARTITION], [core.Aws.REGION] and [core.Aws.ACCOUNT_ID]
    resolve to in the deployed stack, the truth value of each template
    condition (by logical id), and the ARN of each role (by construct id). *)
Variables PARTITION REGION ACCOUNT_ID : string.
Variable conditions : string → bool.
Variable arn_of_role : string → string.

Definition sagemaker_arn_prefix : string :=
  "arn:" +:+ PARTITION +:+ ":sagemaker:" +:+ REGION +:+ ":" +:+ ACCOUNT_ID.

(** [core.Fn.condition_if(condition_id, value_if_true, value_if_false).to_string()] *)
Definition Fn_condition_if (condition_id value_if_true value_if_false : string)
    : string :=
  if conditions condition_id then value_if_true else value_if_false.

Definition sagemaker_policy_statement (is_realtime_pipeline : bool)
    (endpoint_name : CfnParameter) (endpoint_name_provided : CfnCondition)
    : PolicyStatement :=
  let actions :=
    ["sagemaker:CreateModel"; "sagemaker:DescribeModel"; "sagemaker:DeleteModel"] in
  let resources := [sagemaker_arn_prefix +:+ ":model/mlopssagemakermodel*"] in
  if is_realtime_pipeline then
    let actions :=
      actions ++
        ["sagemaker:CreateEndpointConfig";
         "sagemaker:DescribeEndpointConfig";
         "sagemaker:DeleteEndpointConfig";
         "sagemaker:CreateEndpoint";
         "sagemaker:DescribeEndpoint";
         "sagemaker:DeleteEndpoint"] in
    let endpoint :=
      Fn_condition_if (logical_id endpoint_name_provided)
        (value_as_string endpoint_name) "mlopssagemakerendpoint*" in
    let resources :=
      resources ++
        [sagemaker_arn_prefix +:+ ":endpoint-config/mlopssagemakerendpointconfig*";
         sagemaker_arn_prefix +:+ ":endpoint/" +:+ endpoint] in
    {| actions := actions; resources := resources |}
  else
    {| actions := actions; resources := resources |}.

Definition create_service_role (id service description : string) : Role :=
  {| role_id := id; assumed_by := service; description := description;
     role_arn := arn_of_role id |}.

End deployment.

End IamPolicies.

(** ** Pipeline actions: the baseline-job Lambda function *)

Module DeployActions.

Import IamPolicies.

Record Bucket := { bucket_name : string }.
Record LayerVersion := { layer_id : string }.

(** [lambda_.Code.from_bucket(bucket, key)] *)
Record Code := { code_bucket : Bucket; code_key : string }.

(** A [lambda_.Function] that was created, with its properties. *)
Record Function := {
  function_id : string;
  runtime : string;
  handler : string;
  role : Role;
  code : Code;
  layers : list LayerVersion;
  environment : gmap string string;
  timeout_minutes : nat;
}.

Definition lambda_service : string := "lambda.amazonaws.com".
Definition lambda_handler : string := "main.handler".

Section deployment.

Variable arn_of_role : string → string.

(** The error the construct library raises for properties it refuses. *)
Variable jsii_error : exn.

(** [lambda_.Function(scope, id, runtime=..., handler=..., role=...,
    code=..., layers=..., environment=..., timeout=...)]. The Python
    dictionary passed as [environment] holds [None] where the argument it was
    built from is [None]; the constructor takes strings only, so with a
    [None] value it raises and no function is created. *)
Definition lambda_Function
    (construct_id runtime handler : string) (role : Role) (code : Code)
    (layers : list LayerVersion) (environment : gmap string (option string))
    (timeout_minutes : nat) : result Function :=
  if bool_decide (map_Forall (λ _ v, is_Some v) environment) then
    Ok {| function_id := construct_id;
          runtime := runtime;
          handler := handler;
          role := role;
          code := code;
          layers := layers;
          environment := omap id environment;
          timeout_minutes := timeout_minutes |}
  else Raise jsii_error.

(** [create_baseline_job_lambda]: the function the stage invokes. The policy
    statements attached to the two roles and the template metadata are
    written to the construct tree only; the returned function's properties
    are these. The five last arguments default to [None]. *)
Definition create_baseline_job_lambda
    (blueprint_bucket assets_bucket : Bucket)
    (monitoring_type baseline_job_name baseline_data_location
     baseline_job_output_location endpoint_name instance_type
     instance_volume_size max_runtime_seconds kms_key_arn stack_name : string)
    (sm_layer : LayerVersion)
    (problem_type ground_truth_attribute inference_attribute
     probability_attribute probability_threshold_attribute : option string)
    : result Function :=
  let sagemaker_role :=
    create_service_role arn_of_role "create_baseline_sagemaker_role"
      "sagemaker.amazonaws.com"
      "Role that is create sagemaker model Lambda function assumes to create a baseline job." in
  let lambda_role :=
    create_service_role arn_of_role "create_baseline_job_lambda_role"
      lambda_service
      "Role that is create_data_baseline_job Lambda function assumes to create a baseline job in the pipeline." in
  let lambda_environment_variables : gmap string (option string) :=
    <["LOG_LEVEL" := Some "INFO"]>
    (<["STACK_NAME" := Some stack_name]>
    (<["KMS_KEY_ARN" := Some kms_key_arn]>
    (<["ROLE_ARN" := Some (role_arn sagemaker_role)]>
    (<["MAX_RUNTIME_SECONDS" := Some max_runtime_seconds]>
    (<["INSTANCE_VOLUME_SIZE" := Some instance_volume_size]>
    (<["INSTANCE_TYPE" := Some instance_type]>
    (<["BASELINE_JOB_OUTPUT_LOCATION" := Some baseline_job_output_location]>
    (<["BASELINE_DATA_LOCATION" := Some baseline_data_location]>
    (<["SAGEMAKER_ENDPOINT_NAME" := Some endpoint_name]>
    (<["ASSETS_BUCKET" := Some (bucket_name assets_bucket)]>
    (<["BASELINE_JOB_NAME" := Some baseline_job_name]>
    (<["MONITORING_TYPE" := Some monitoring_type]> ∅)))))))))))) in
  let lambda_environment_variables :=
    if String.eqb monitoring_type "ModelQuality" then
      <["PROBABILITY_THRESHOLD_ATTRIBUTE" := probability_threshold_attribute]>
      (<["PROBABILITY_ATTRIBUTE" := probability_attribute]>
      (<["INFERENCE_ATTRIBUTE" := inference_attribute]>
      (<["GROUND_TRUTH_ATTRIBUTE" := ground_truth_attribute]>
      (<["PROBLEM_TYPE" := problem_type]> lambda_environment_variables))))
    else lambda_environment_variables in
  create_baseline_job_lambda ←
    lambda_Function "create_data_baseline_job" "python3.8" lambda_handler
      lambda_role
      {| code_bucket := blueprint_bucket;
         code_key := "blueprints/byom/lambdas/create_baseline_job.zip" |}
      [sm_layer] lambda_environment_variables 10;
  mret create_baseline_job_lambda.

End deployment.

End DeployActions.

(** ** Computations with state and exceptions *)

(** A Python statement run in state [St]: it ends with a value or with a
    raised exception, and in both cases leaves a state behind. *)
Definition M (St A : Type) : Type := St → result A * St.

#[global] Instance M_ret {St} : MRet (M St) := fun _ a s => (Ok a, s).
#[global] Instance M_bind {St} : MBind (M St) := fun _ _ k m s =>
  match m s with
  | (Ok a, s') => k a s'
  | (Raise e, s') => (Raise e, s')
  end.

Definition raise {St A} (e : exn) : M St A := fun s => (Raise e, s).

(** [try: body  except ... as e: handler e]; what [body] did to the state
    before it raised stays done. *)
Definition try_except {St A} (body : M St A) (handler : exn → M St A) : M St A :=
  fun s =>
    match body s with
    | (Ok a, s') => (Ok a, s')
    | (Raise e, s') => handler e s'
    end.

(** [keeps I m post]: run from a state where [I] holds, [m] leaves a state
    where [I] holds, whether it returns or raises, and what it returns
    satisfies [post]. *)
Definition keeps {St A} (I : St → Prop) (m : M St A) (post : A → Prop) : Prop :=
  ∀ s, I s → I (m s).2 ∧ ∀ a, (m s).1 = Ok a → post a.

(** ** The solution helper custom resource *)

Module SolutionHelper.

Definition loc := positive.

(** Python values: immutable ones by value, dictionaries and lists by
    reference into the heap. *)
Inductive value :=
  | VNone
  | VBool (b : bool)
  | VInt (n : Z)
  | VStr (s : string)
  | VRef (l : loc).

Inductive object :=
  | Dict (d : gmap string value)
  | List (xs : list value).

(** What an invocation does to the world outside its heap. *)
Inductive call :=
  | Uuid4 (random_id : string)
  | HelperDataUpdate (key : string) (v : value)
  | LoggerInfo (msg : string) (args : list value)
  | LoggerException (msg : string)
  | RequestsPost (url : string) (json headers : value).

(** The heap, the module-level [helper.Data] dictionary, how many UUIDs
    were drawn so far, and the calls made, oldest first. *)
Record state := State {
  heap : gmap loc object;
  helper_Data : gmap string value;
  uuids_drawn : nat;
  calls : list call;
}.

(** [response.status_code] and [response.reason] *)
Record Response := { status_code : Z; reason : string }.

Definition set_heap (h : gmap loc object) (s : state) : state :=
  State h (helper_Data s) (uuids_drawn s) (calls s).

Definition record (c : call) : M state () := fun s =>
  (Ok (), State (heap s) (helper_Data s) (uuids_drawn s) (calls s ++ [c])).

(** [v == "literal"] *)
Definition eq_str (v : value) (lit : string) : bool :=
  match v with
  | VStr s => String.eqb s lit
  | _ => false
  end.

(** [v[key]] *)
Definition subscript (v : value) (key : string) : M state value := fun s =>
  match v with
  | VRef l =>
      match heap s !! l with
      | Some (Dict d) =>
          match d !! key with
          | Some x => (Ok x, s)
          | None => (Raise (KeyError key), s)
          end
      | _ => (Raise TypeError, s)
      end
  | _ => (Raise TypeError, s)
  end.

(** [v[key] = x] *)
Definition setitem (v : value) (key : string) (x : value) : M state () := fun s =>
  match v with
  | VRef l =>
      match heap s !! l with
      | Some (Dict d) => (Ok (), set_heap (<[l := Dict (<[key := x]> d)]> (heap s)) s)
      | _ => (Raise TypeError, s)
      end
  | _ => (Raise TypeError, s)
  end.

(** [v.pop(key, None)] *)
Definition pop (v : value) (key : string) : M state value := fun s =>
  match v with
  | VRef l =>
      match heap s !! l with
      | Some (Dict d) =>
          (Ok (default VNone (d !! key)),
           set_heap (<[l := Dict (delete key d)]> (heap s)) s)
      | _ => (Raise TypeError, s)
      end
  | _ => (Raise AttributeError, s)
  end.

(** [len(v)] *)
Definition len (v : value) : M state nat := fun s =>
  match v with
  | VStr x => (Ok (String.length x), s)
  | VRef l =>
      match heap s !! l with
      | Some (Dict d) => (Ok (size d), s)
      | Some (List xs) => (Ok (length xs), s)
      | None => (Raise TypeError, s)
      end
  | _ => (Raise TypeError, s)
  end.

(** A dictionary display [{...}]: a new object. *)
Definition new_dict (d : gmap string value) : M state value := fun s =>
  let l := fresh (dom (heap s)) in
  (Ok (VRef l), set_heap (<[l := Dict d]> (heap s)) s).

(** [copy.copy(v)]: a new object with the same items for a dictionary or a
    list, the value itself when it is immutable. *)
Definition copy (v : value) : M state value := fun s =>
  match v with
  | VRef l =>
      match heap s !! l with
      | Some o =>
          let l' := fresh (dom (heap s)) in
          (Ok (VRef l'), set_heap (<[l' := o]> (heap s)) s)
      | None => (Raise TypeError, s)
      end
  | _ => (Ok v, s)
  end.

(** [helper.Data.update({key: v})] *)
Definition helper_Data_update (key : string) (v : value) : M state () := fun s =>
  (Ok (),
   State (heap s) (<[key := v]> (helper_Data s)) (uuids_drawn s)
         (calls s ++ [HelperDataUpdate key v])).

Definition _sanitize_data (resource_properties : value) : M state value :=
  pop resource_properties "ServiceToken";;
  pop resource_properties "Resource";;
  pop resource_properties "SolutionId";;
  pop resource_properties "UUID";;
  mret resource_properties.

(** Calls that only write to the log or to the network. *)
Definition is_output (c : call) : Prop :=
  match c with
  | LoggerInfo _ _ | LoggerException _ | RequestsPost _ _ _ => True
  | Uuid4 _ | HelperDataUpdate _ _ => False
  end.

(** [unchanged_since s0 s]: every object of [s0] is in [s] as it was,
    [helper.Data] and the UUID count are those of [s0], and the calls made
    since [s0] are outputs. *)
Definition unchanged_since (s0 s : state) : Prop :=
  (∀ l o, heap s0 !! l = Some o → heap s !! l = Some o)
  ∧ helper_Data s = helper_Data s0
  ∧ uuids_drawn s = uuids_drawn s0
  ∧ ∃ out, calls s = calls s0 ++ out ∧ Forall is_output out.

(** A value that is not a reference to an object of [s0]. *)
Definition fresh_since (s0 : state) (v : value) : Prop :=
  ∀ l, v = VRef l → heap s0 !! l = None.

Section world.

(** The world an invocation runs in: the identifiers [uuid.uuid4()] draws,
    the clock, and the metrics endpoint, which answers a post with a
    response or with an exception. *)
Variable uuid4 : nat → string.
Variable utcnow_isoformat : string.
Variable requests_post : string → gmap loc object → value → value → result Response.

(** [str(uuid.uuid4())] *)
Definition str_uuid4 : M state string := fun s =>
  let random_id := uuid4 (uuids_drawn s) in
  (Ok random_id,
   State (heap s) (helper_Data s) (S (uuids_drawn s)) (calls s ++ [Uuid4 random_id])).

(** [requests.post(url, json=json, headers=headers)] *)
Definition post (url : string) (json headers : value) : M state Response := fun s =>
  let s' := State (heap s) (helper_Data s) (uuids_drawn s)
                  (calls s ++ [RequestsPost url json headers]) in
  (requests_post url (heap s) json headers, s').

(** The body of the [try] statement of the [AnonymousMetric] branch. *)
Definition send_metrics (request_type resource_properties : value) : M state () :=
  copied ← copy resource_properties;
  metrics_data ← _sanitize_data copied;
  setitem metrics_data "RequestType" request_type;;
  headers ← new_dict {[ "Content-Type" := VStr "application/json" ]};
  git ← subscript resource_properties "gitSelected";
  n ← len git;
  let git_selected := if bool_decide (0 < n) then "True" else "False" in
  bucket ← subscript resource_properties "bucketSelected";
  n ← len bucket;
  let existing_bucket_selected := if bool_decide (0 < n) then "True" else "False" in
  solution_id ← subscript resource_properties "SolutionId";
  uuid ← subscript resource_properties "UUID";
  payload ← new_dict
    (<["Data" := metrics_data]>
    (<["TimeStamp" := VStr utcnow_isoformat]>
    (<["UUID" := uuid]>
    (<["bucketSelected" := VStr existing_bucket_selected]>
    (<["gitSelected" := VStr git_selected]>
    (<["Solution" := solution_id]> ∅))))));
  record (LoggerInfo "Sending payload: " [payload]);;
  response ← post "https://metrics.awssolutionsbuilder.com/generic" payload headers;
  record (LoggerInfo "Response from metrics endpoint: "
            [VInt (status_code response); VStr (reason response)]).

(** The two [except] clauses, tried in order. *)
Definition send_metrics_except (e : exn) : M state () :=
  match e with
  | RequestException => record (LoggerException "Could not send usage data")
  | _ => record (LoggerException "Unknown error when trying to send usage data")
  end.

Definition custom_resource (event : value) : M state () :=
  request_type ← subscript event "RequestType";
  resource_properties ← subscript event "ResourceProperties";
  resource ← subscript resource_properties "Resource";
  if eq_str resource "UUID" && eq_str request_type "Create" then
    random_id ← str_uuid4;
    helper_Data_update "UUID" (VStr random_id)
  else if eq_str resource "AnonymousMetric" then
    try_except (send_metrics request_type resource_properties) send_metrics_except
  else mret ().

End world.

(** *** A sample invocation

    The event CloudFormation sends for the metrics resource, in a heap of
    two objects, and a world whose metrics endpoint answers 200 or is out
    of reach. *)

Definition sample_properties : gmap string value :=
  <["Region" := VStr "us-east-1"]>
  (<["bucketSelected" := VStr "my-assets-bucket"]>
  (<["gitSelected" := VStr ""]>
  (<["UUID" := VStr "1b9d6bcd-bbfd-4b2d-9b5d-ab8dfbbd4bed"]>
  (<["SolutionId" := VStr "SO0136"]>
  (<["Resource" := VStr "AnonymousMetric"]>
  (<["ServiceToken" := VStr "arn:aws:lambda:us-east-1:123456789012:function:helper"]>
   ∅)))))).

Definition sample_event (request_type : string) : gmap string value :=
  <["ResourceProperties" := VRef 2%positive]>
  (<["RequestType" := VStr request_type]> ∅).

Definition sample_state (request_type : string) (properties : gmap string value)
    : state :=
  {| heap := <[2%positive := Dict properties]>
             (<[1%positive := Dict (sample_event request_type)]> ∅);
     helper_Data := ∅;
     uuids_drawn := 0;
     calls := [] |}.

(** The keys of the dictionary at [l]. *)
Definition keys_at (s : state) (l : loc) : option (list string) :=
  match heap s !! l with
  | Some (Dict d) => Some (map fst (map_to_list d))
  | _ => None
  end.

Definition sample_uuid4 (n : nat) : string :=
  "9f8e7d6c-0000-4000-8000-00000000000" +:+ pretty n.

Definition sample_utcnow : string := "2021-06-01T12:00:00.000000".

Definition endpoint_ok (_ : string) (_ : gmap loc object) (_ _ : value)
    : result Response :=
  Ok {| status_code := 200; reason := "OK" |}.

Definition endpoint_down (_ : string) (_ : gmap loc object) (_ _ : value)
    : result Response :=
  Raise RequestException.

End SolutionHelper.

(** ** The inference Lambda function *)

Module InferenceLambda.

(** What [json.loads] returns, and what the handler returns to API Gateway. *)
Inductive json :=
  | JNull
  | JBool (b : bool)
  | JInt (n : Z)
  | JFloat (literal : string)
  | JStr (s : string)
  | JArr (xs : list json)
  | JObj (d : gmap string json).

(** The keyword arguments of [invoke_endpoint]. *)
Record InvokeEndpoint := {
  EndpointName : string;
  Body : json;
  ContentType : json;
}.

(** The endpoint's response: the bytes [response["Body"].read()] yields. *)
Record InvokeEndpointOutput := { Body_read : list Byte.byte }.

Inductive call :=
  | SdkInvokeEndpoint (request : InvokeEndpoint)
  | LoggerInfoResponse (response : InvokeEndpointOutput)
  | LoggerInfo (msg : string).

(** The calls the function made so far, oldest first. *)
Definition state := list call.

Definition record (c : call) : M state () := fun s => (Ok (), s ++ [c]).

(** [v[key]] *)
Definition subscript (v : json) (key : string) : M state json :=
  match v with
  | JObj d =>
      match d !! key with
      | Some x => mret x
      | None => raise (KeyError key)
      end
  | _ => raise TypeError
  end.

Section runtime.

(** The Lambda runtime: the process environment, the library functions
    [json.loads] and [bytes.decode], the SageMaker runtime client, and the
    type of the context object. *)
Variable environ : gmap string string.
Variable json_loads : string → result json.
Variable bytes_decode : list Byte.byte → result string.
Variable sm_invoke_endpoint : InvokeEndpoint → result InvokeEndpointOutput.
Variable LambdaContext : Type.

(** The decorator of [shared.wrappers], which this function is wrapped in. *)
Variable api_exception_handler :
  (json → LambdaContext → M state json) → json → LambdaContext → M state json.

(** [json.loads(v)] *)
Definition loads (v : json) : M state json := fun s =>
  match v with
  | JStr text => (json_loads text, s)
  | _ => (Raise TypeError, s)
  end.

(** [os.environ[key]] *)
Definition os_environ (key : string) : M state string := fun s =>
  (getitem environ key, s).

(** [sm_client.invoke_endpoint(EndpointName=..., Body=..., ContentType=...)] *)
Definition invoke_endpoint (request : InvokeEndpoint) : M state InvokeEndpointOutput :=
  fun s => (sm_invoke_endpoint request, s ++ [SdkInvokeEndpoint request]).

(** [response["Body"].read().decode()] *)
Definition read_decode (response : InvokeEndpointOutput) : M state string := fun s =>
  (bytes_decode (Body_read response), s).

Definition invoke (event_body : json) (endpoint_name : string) : M state json :=
  payload ← subscript event_body "payload";
  content_type ← subscript event_body "ContentType";
  response ← invoke_endpoint
    {| EndpointName := endpoint_name; Body := payload; ContentType := content_type |};
  record (LoggerInfoResponse response);;
  predictions ← read_decode response;
  record (LoggerInfo predictions);;
  mret (JObj
    (<["headers" := JObj {[ "Content-Type" := JStr "plain/text" ]}]>
    (<["body" := JStr predictions]>
    (<["isBase64Encoded" := JBool false]>
    (<["statusCode" := JInt 200]> ∅))))).

(** The function under the decorator. *)
Definition handler_body (event : json) (context : LambdaContext) : M state json :=
  body ← subscript event "body";
  event_body ← loads body;
  endpoint_name ← os_environ "ENDPOINT_NAME";
  invoke event_body endpoint_name.

Definition handler : json → LambdaContext → M state json :=
  api_exception_handler handler_body.

End runtime.

(** *** A sample runtime

    An endpoint that answers every request with the bytes of ["0.87"], a
    [json.loads] that knows one request body, and a decorator that turns
    an exception into a 500 response. *)

Definition sample_body : string :=
  "{'payload': '1,2,3', 'ContentType': 'text/csv'}".

Definition sample_environ : gmap string string :=
  {[ "ENDPOINT_NAME" := "mlopssagemakerendpoint-1" ]}.

Definition sample_json_loads (text : string) : result json :=
  if String.eqb text sample_body then
    Ok (JObj (<["ContentType" := JStr "text/csv"]> (<["payload" := JStr "1,2,3"]> ∅)))
  else Raise (OtherException "JSONDecodeError").

Definition sample_bytes_decode (bytes : list Byte.byte) : result string :=
  Ok (String.string_of_list_byte bytes).

Definition sample_endpoint (_ : InvokeEndpoint) : result InvokeEndpointOutput :=
  Ok {| Body_read := String.list_byte_of_string "0.87" |}.

Definition sample_api_exception_handler
    (f : json → () → M state json) (event : json) (context : ()) : M state json :=
  try_except (f event context)
    (fun _ => mret (JObj (<["statusCode" := JInt 500]> ∅))).

Definition sample_api_event : json :=
  JObj (<["body" := JStr sample_body]> (<["httpMethod" := JStr "POST"]> ∅)).

End InferenceLambda.

(** ** More of the orchestrator's fixtures: required keys and template parameters *)

Module TemplateFixtures.

Import OrchestratorFixtures.

Definition required_api_byom_batch_builtin : list string :=
  ["pipeline_type"; "model_name"; "model_artifact_location"; "inference_instance";
   "batch_job_output_location"; "model_framework"; "model_framework_version";
   "batch_inference_data"].

Definition required_api_byom_realtime_custom : list string :=
  ["pipeline_type"; "model_name"; "model_artifact_location"; "inference_instance";
   "data_capture_location"; "custom_image_uri"].

Definition required_api_byom_batch_custom : list string :=
  ["pipeline_type"; "custom_image_uri"; "model_name"; "model_artifact_location";
   "inference_instance"; "batch_inference_data"; "batch_job_output_location"].

(** [{"ParameterKey": ..., "ParameterValue": ..., "UsePreviousValue": ...}] *)
Record parameter := {
  ParameterKey : string;
  ParameterValue : field;
  UsePreviousValue : bool;
}.

(** [_template_parameters_common(event)] *)
Definition template_parameters_common (environ : gmap string string)
    (event : gmap string field) : result (list parameter) :=
  notification_email ← getitem environ "NOTIFICATION_EMAIL";
  blueprint_bucket ← getitem environ "BLUEPRINT_BUCKET";
  assets_bucket ← getitem environ "ASSETS_BUCKET";
  model_name ← getitem event "model_name";
  model_artifact_location ← getitem event "model_artifact_location";
  inference_instance ← getitem event "inference_instance";
  Ok [ {| ParameterKey := "NOTIFICATIONEMAIL";
          ParameterValue := Str notification_email; UsePreviousValue := true |};
       {| ParameterKey := "BLUEPRINTBUCKET";
          ParameterValue := Str blueprint_bucket; UsePreviousValue := true |};
       {| ParameterKey := "ASSETSBUCKET";
          ParameterValue := Str assets_bucket; UsePreviousValue := true |};
       {| ParameterKey := "MODELNAME";
          ParameterValue := model_name; UsePreviousValue := true |};
       {| ParameterKey := "MODELARTIFACTLOCATION";
          ParameterValue := model_artifact_location; UsePreviousValue := true |};
       {| ParameterKey := "INFERENCEINSTANCE";
          ParameterValue := inference_instance; UsePreviousValue := true |} ].

(** [_template_parameters_realtime_builtin(event)] *)
Definition template_parameters_realtime_builtin (environ : gmap string string)
    (event : gmap string field) : result (list parameter) :=
  template_parameters ← template_parameters_common environ event;
  model_framework ← getitem event "model_framework";
  model_framework_version ← getitem event "model_framework_version";
  Ok (template_parameters ++
        [ {| ParameterKey := "MODELFRAMEWORK";
             ParameterValue := model_framework; UsePreviousValue := true |};
          {| ParameterKey := "MODELFRAMEWORKVERSION";
             ParameterValue := model_framework_version; UsePreviousValue := true |} ]).

(** [_template_parameters_batch_builtin(event)] *)
Definition template_parameters_batch_builtin (environ : gmap string string)
    (event : gmap string field) : result (list parameter) :=
  template_parameters ← template_parameters_realtime_builtin environ event;
  batch_inference_data ← getitem event "batch_inference_data";
  Ok (template_parameters ++
        [ {| ParameterKey := "BATCHINFERENCEDATA";
             ParameterValue := batch_inference_data; UsePreviousValue := true |} ]).

(** [_template_parameters_realtime_custom(event)] *)
Definition template_parameters_realtime_custom (environ : gmap string string)
    (event : gmap string field) : result (list parameter) :=
  template_parameters ← template_parameters_common environ event;
  custom_model_container ← getitem event "custom_model_container";
  Ok (template_parameters ++
        [ {| ParameterKey := "CUSTOMCONTAINER";
             ParameterValue := custom_model_container; UsePreviousValue := true |} ]).

(** [_template_parameters_batch_custom(event)] *)
Definition template_parameters_batch_custom (environ : gmap string string)
    (event : gmap string field) : result (list parameter) :=
  template_parameters ← template_parameters_realtime_custom environ event;
  batch_inference_data ← getitem event "batch_inference_data";
  Ok (template_parameters ++
        [ {| ParameterKey := "BATCHINFERENCEDATA";
             ParameterValue := batch_inference_data; UsePreviousValue := true |} ]).

(** Whether a call returned rather than raised. *)
Definition returned {A} (r : result A) : bool :=
  match r with
  | Ok _ => true
  | Raise _ => false
  end.

(** [_get_parameters_keys(parameters)] *)
Definition get_parameters_keys (parameters : list parameter) : list string :=
  map ParameterKey parameters.

End TemplateFixtures.

(** ** More IAM statements: SageMaker jobs, monitoring, tags and the model registry *)

Module SageMakerPolicies.

Import IamPolicies.

(** The statement of the resource policy of a model package group. *)
Record ResourceStatement := {
  Sid : string;
  Effect : string;
  Principal_AWS : list string;
  Action : list string;
  Resource : list string;
}.

Record ResourcePolicy := {
  Version : string;
  Statement : list ResourceStatement;
}.

Section deployment.

Variables PARTITION REGION ACCOUNT_ID : string.

Definition sagemaker_arn_prefix : string :=
  IamPolicies.sagemaker_arn_prefix PARTITION REGION ACCOUNT_ID.

(** A statement all of whose actions are SageMaker actions and all of whose
    resources are SageMaker ARNs of this partition, region and account. *)
Definition scoped (statement : PolicyStatement) : Prop :=
  Forall (λ action, ∃ name, action = "sagemaker:" +:+ name) (actions statement)
  ∧ Forall (λ resource, ∃ rest, resource = sagemaker_arn_prefix +:+ ":" +:+ rest)
      (resources statement).

Definition sagemaker_baseline_job_policy (baseline_job_name : string) : PolicyStatement :=
  {| actions :=
       ["sagemaker:CreateProcessingJob"; "sagemaker:DescribeProcessingJob";
        "sagemaker:StopProcessingJob"; "sagemaker:DeleteProcessingJob"];
     resources := [sagemaker_arn_prefix +:+ ":processing-job/" +:+ baseline_job_name] |}.

Definition batch_transform_policy : PolicyStatement :=
  {| actions := ["sagemaker:CreateTransformJob"];
     resources :=
       [sagemaker_arn_prefix +:+ ":transform-job/mlopssagemakermodel-*-batch-transform-*"] |}.

Definition sagemaker_monitor_policy_statement
    (baseline_job_name monitoring_schedule_name endpoint_name : string)
    : PolicyStatement :=
  {| actions :=
       ["sagemaker:DescribeEndpointConfig";
        "sagemaker:DescribeEndpoint";
        "sagemaker:CreateMonitoringSchedule";
        "sagemaker:DescribeMonitoringSchedule";
        "sagemaker:StopMonitoringSchedule";
        "sagemaker:DeleteMonitoringSchedule";
        "sagemaker:DescribeProcessingJob";
        "sagemaker:CreateDataQualityJobDefinition";
        "sagemaker:DescribeDataQualityJobDefinition";
        "sagemaker:DeleteDataQualityJobDefinition";
        "sagemaker:CreateModelQualityJobDefinition";
        "sagemaker:DescribeModelQualityJobDefinition";
        "sagemaker:DeleteModelQualityJobDefinition"];
     resources :=
       [sagemaker_arn_prefix +:+ ":endpoint-config/mlopssagemakerendpointconfig*";
        sagemaker_arn_prefix +:+ ":endpoint/" +:+ endpoint_name;
        sagemaker_arn_prefix +:+ ":monitoring-schedule/" +:+ monitoring_schedule_name;
        sagemaker_arn_prefix +:+ ":processing-job/" +:+ baseline_job_name;
        sagemaker_arn_prefix +:+ ":data-quality-job-definition/*";
        sagemaker_arn_prefix +:+ ":model-quality-job-definition/*"] |}.

Definition sagemaker_tags_policy_statement : PolicyStatement :=
  {| actions := ["sagemaker:AddTags"; "sagemaker:DeleteTags"];
     resources := [sagemaker_arn_prefix +:+ ":*"] |}.

Definition get_model_registry_actions_resources (model_package_group_name : string)
    : list string * list string :=
  let actions :=
    ["sagemaker:DescribeModelPackageGroup";
     "sagemaker:DescribeModelPackage";
     "sagemaker:ListModelPackages";
     "sagemaker:UpdateModelPackage";
     "sagemaker:CreateModel"] in
  let resources :=
    [sagemaker_arn_prefix +:+ ":model-package-group/" +:+ model_package_group_name;
     sagemaker_arn_prefix +:+ ":model-package/" +:+ model_package_group_name +:+ "/*"] in
  (actions, resources).

Definition model_registry_policy_statement (model_package_group_name : string)
    : PolicyStatement :=
  let '(actions, resources) :=
    get_model_registry_actions_resources model_package_group_name in
  {| actions := actions; resources := resources |}.

Definition model_package_group_policy (model_package_group_name : string)
    (accounts_list : list string) : ResourcePolicy :=
  let '(actions, resources) :=
    get_model_registry_actions_resources model_package_group_name in
  {| Version := "2012-10-17";
     Statement :=
       [ {| Sid := "AddPermModelPackageGroup";
            Effect := "Allow";
            Principal_AWS :=
              map (λ account_id, "arn:" +:+ PARTITION +:+ ":iam::" +:+ account_id +:+ ":root")
                  accounts_list;
            Action := actions;
            Resource := resources |} ] |}.

End deployment.

End SageMakerPolicies.

(** ** Custom resources declared by the pipeline definitions *)

Module CustomResources.

(** [core.CustomResource(scope, id, service_token=..., properties=..., resource_type=...)] *)
Record CustomResource := {
  resource_id : string;
  service_token : string;
  properties : gmap string string;
  resource_type : string;
}.

Section deployment.

(** The ARN of the Lambda function created under a construct id. *)
Variable arn_of_function : string → string.

(** [create_invoke_lambda_custom_resource]: the custom resource returned.
    In the dictionary display [{"function_name": ..., "message": ...,
    **custom_resource_properties}] an item of the unpacked dictionary
    replaces an earlier item with the same key. *)
Definition create_invoke_lambda_custom_resource
    (id lambda_function_arn lambda_function_name : string)
    (custom_resource_properties : gmap string string) : CustomResource :=
  {| resource_id := id +:+ "CustomResource";
     service_token := arn_of_function id;
     properties :=
       custom_resource_properties ∪
         (<["message" := "Invoking lambda function: " +:+ lambda_function_name]>
         (<["function_name" := lambda_function_name]> ∅));
     resource_type := "Custom::InvokeLambda" |}.

(** [create_uuid_custom_resource] *)
Definition create_uuid_custom_resource (create_model_registry helper_function_arn : string)
    : CustomResource :=
  {| resource_id := "CreateUniqueID";
     service_token := helper_function_arn;
     properties :=
       <["CreateModelRegistry" := create_model_registry]> (<["Resource" := "UUID"]> ∅);
     resource_type := "Custom::CreateUUID" |}.

End deployment.

End CustomResources.

(** * Properties *)

(** ** Membership in lists of string literals *)

Lemma str_in_spec x xs : str_in x xs = true ↔ x ∈ xs.
Proof.
  unfold str_in. rewrite existsb_exists. split.
  - intros (y & Hy & Heq). apply String.eqb_eq in Heq. subst.
    by apply list_elem_of_In.
  - intros Hx. exists x. split; [by apply list_elem_of_In | apply String.eqb_refl].
Qed.

Lemma str_in_false x xs : str_in x xs = false ↔ x ∉ xs.
Proof.
  rewrite <- str_in_spec. destruct (str_in x xs); split; congruence.
Qed.

(** ** Required keys of the API calls *)

(** Splits a [Forall] over an explicit list into one goal per element. *)
Ltac each_key := repeat first [apply Forall_nil_2 | apply Forall_cons_2].

(** Lookups in a dictionary display with literal keys. *)
Ltac map_lookup :=
  repeat first
    [ rewrite lookup_insert_eq
    | rewrite lookup_insert_ne by done
    | rewrite lookup_empty ].

(** Runs a fixture whose tests are on literals. *)
Ltac run_fixture :=
  repeat (progress
    (cbn [mbind result_bind str_in existsb String.eqb Ascii.eqb Bool.eqb orb
          OrchestratorFixtures.str_of_bool OrchestratorFixtures.by_is_multi];
     map_lookup)).

(** Settles "the key is there" and "the key is there exactly when the
    literal is in the list" once both sides are known. *)
Ltac key_holds :=
  try rewrite <- str_in_spec;
  vm_compute;
  first
    [ by eexists
    | split; [intros _; reflexivity | intros _; by eexists]
    | split; [by intros [? ?] | discriminate] ].

Section fixtures.

Import OrchestratorFixtures.

(** C5. For the [byom_realtime_builtin] pipeline type the required keys
    always contain [pipeline_type], [model_name], [inference_instance] and
    [data_capture_location]; they contain [model_package_name] exactly when
    [use_model_registry] is ["Yes"], and each of [model_framework],
    [model_framework_version] and [model_artifact_location] exactly when it
    is not. *)
Theorem required_api_byom_realtime_builtin_keys (use_model_registry : string) :
  let required_keys := required_api_byom_realtime_builtin use_model_registry in
  Forall (λ k, k ∈ required_keys)
    ["pipeline_type"; "model_name"; "inference_instance"; "data_capture_location"]
  ∧ ("model_package_name" ∈ required_keys ↔ use_model_registry = "Yes")
  ∧ Forall (λ k, k ∈ required_keys ↔ use_model_registry ≠ "Yes")
      ["model_framework"; "model_framework_version"; "model_artifact_location"].
Proof.
  unfold required_api_byom_realtime_builtin.
  destruct (String.eqb_spec use_model_registry "Yes") as [-> | Hne]; cbn zeta.
  - split_and!; [each_key; set_solver | set_solver |].
    each_key; (split; [set_solver | done]).
  - split_and!; [each_key; set_solver | set_solver |].
    each_key; set_solver.
Qed.

(** C4. For a monitoring type other than ["ModelQuality"] the required keys
    of a model-monitor call are exactly the eleven common keys. For
    ["ModelQuality"] they are followed by the four model-quality keys and
    then by [monitor_inference_attribute] when the problem type is
    ["Regression"] or ["MulticlassClassification"], and by the three
    probability keys for every other problem type. *)
Theorem required_api_keys_model_monitor_keys
    (monitoring_type : string) (problem_type : option string) :
  let common_keys :=
    ["pipeline_type"; "model_name"; "endpoint_name"; "baseline_data";
     "baseline_job_output_location"; "data_capture_location";
     "monitoring_output_location"; "schedule_expression";
     "monitor_max_runtime_seconds"; "instance_type"; "instance_volume_size"] in
  let model_quality_keys :=
    ["baseline_inference_attribute"; "baseline_ground_truth_attribute";
     "problem_type"; "monitor_ground_truth_input"] in
  let required_keys := required_api_keys_model_monitor monitoring_type problem_type in
  (monitoring_type ≠ "ModelQuality" → required_keys = common_keys)
  ∧ (monitoring_type = "ModelQuality" →
     (problem_type = Some "Regression" ∨ problem_type = Some "MulticlassClassification" →
      required_keys =
        common_keys ++ model_quality_keys ++ ["monitor_inference_attribute"])
     ∧ (problem_type ≠ Some "Regression" →
        problem_type ≠ Some "MulticlassClassification" →
        required_keys =
          common_keys ++ model_quality_keys ++
            ["monitor_probability_attribute"; "probability_threshold_attribute";
             "baseline_probability_attribute"])).
Proof.
  unfold required_api_keys_model_monitor. cbn zeta. split.
  - intros Hne. apply String.eqb_neq in Hne. by rewrite Hne.
  - intros ->. cbn [String.eqb Ascii.eqb Bool.eqb negb]. split.
    + by intros [-> | ->].
    + intros Hreg Hmulti.
      destruct problem_type as [p |]; [| done].
      destruct (str_in p ["Regression"; "MulticlassClassification"]) eqn:Hin; [| done].
      apply str_in_spec in Hin. set_solver.
Qed.

Lemma required_api_keys_model_monitor_keys_witness :
  required_api_keys_model_monitor "DataQuality" None =
    ["pipeline_type"; "model_name"; "endpoint_name"; "baseline_data";
     "baseline_job_output_location"; "data_capture_location";
     "monitoring_output_location"; "schedule_expression";
     "monitor_max_runtime_seconds"; "instance_type"; "instance_volume_size"]
  ∧ length (required_api_keys_model_monitor "ModelQuality" (Some "Regression")) = 16
  ∧ length (required_api_keys_model_monitor "ModelQuality" (Some "BinaryClassification")) = 18.
Proof.
  split; [| split].
  - apply (proj1 (required_api_keys_model_monitor_keys "DataQuality" None)).
    discriminate.
  - rewrite (proj1 (proj2 (required_api_keys_model_monitor_keys
               "ModelQuality" (Some "Regression")) eq_refl) (or_introl eq_refl)).
    reflexivity.
  - rewrite (proj2 (proj2 (required_api_keys_model_monitor_keys
               "ModelQuality" (Some "BinaryClassification")) eq_refl)).
    + reflexivity.
    + discriminate.
    + discriminate.
Defined.

(** What the test environment holds under the names the event reads. *)
Lemma mock_env_variables_lookup (environ : gmap string string) :
  let environ := mock_env_variables environ in
  environ !! "INSTANCETYPE" = Some "ml.m5.large"
  ∧ environ !! "BATCHOUTPUT" = Some "bucket/output"
  ∧ environ !! "DATACAPTURE" = Some "bucket/datacapture"
  ∧ environ !! "MODELARTIFACTLOCATION" = Some "model.tar.gz"
  ∧ environ !! "MODEL_PACKAGE_NAME" = Some "arn:aws:sagemaker:*:*:model-package/xgboost/1"
  ∧ environ !! "INFERENCEDATA" = Some "inference/data.csv".
Proof.
  unfold mock_env_variables. cbn zeta.
  split_and!; repeat (rewrite lookup_insert_ne by done); apply lookup_insert_eq.
Qed.

(** C6. For each of the four BYOM pipeline types the constructed event
    always holds [pipeline_type], [model_name], [model_artifact_location],
    [model_package_name] and [inference_instance]; the two batch keys exactly
    for the batch types, [data_capture_location] exactly for the realtime
    types, the two framework keys exactly for the builtin types and
    [custom_image_uri] exactly for the custom types. *)
Theorem api_byom_event_keys (environ : gmap string string)
    (pipeline_type : string) (is_multi endpint_name_provided : bool) :
  pipeline_type ∈ ["byom_realtime_builtin"; "byom_realtime_custom";
                   "byom_batch_builtin"; "byom_batch_custom"] →
  ∃ event : gmap string field,
    api_byom_event (mock_env_variables environ) pipeline_type is_multi
      endpint_name_provided = Ok event
    ∧ event !! "pipeline_type" = Some (Str pipeline_type)
    ∧ Forall (λ k, is_Some (event !! k))
        ["model_name"; "model_artifact_location"; "model_package_name";
         "inference_instance"]
    ∧ Forall (λ k, is_Some (event !! k) ↔
                   pipeline_type ∈ ["byom_batch_builtin"; "byom_batch_custom"])
        ["batch_inference_data"; "batch_job_output_location"]
    ∧ (is_Some (event !! "data_capture_location") ↔
       pipeline_type ∈ ["byom_realtime_builtin"; "byom_realtime_custom"])
    ∧ Forall (λ k, is_Some (event !! k) ↔
                   pipeline_type ∈ ["byom_realtime_builtin"; "byom_batch_builtin"])
        ["model_framework"; "model_framework_version"]
    ∧ (is_Some (event !! "custom_image_uri") ↔
       pipeline_type ∈ ["byom_realtime_custom"; "byom_batch_custom"]).
Proof.
  intros Htype.
  destruct (mock_env_variables_lookup environ)
    as (Hinst & Hbatch & Hcapture & Hartifact & Hpackage & Hdata).
  unfold api_byom_event, getitem.
  rewrite Hinst, Hbatch, Hcapture, Hartifact, Hpackage, Hdata.
  clear Hinst Hbatch Hcapture Hartifact Hpackage Hdata.
  repeat (apply elem_of_cons in Htype as [-> | Htype]);
    [.. | by apply elem_of_nil in Htype];
    destruct is_multi, endpint_name_provided;
    run_fixture;
    (eexists; split; [reflexivity |]);
    (split_and!; [reflexivity | each_key ..]);
    key_holds.
Qed.

Lemma api_byom_event_keys_witness :
  ∃ event : gmap string field,
    api_byom_event (mock_env_variables ∅) "byom_batch_custom" false false = Ok event
    ∧ is_Some (event !! "custom_image_uri")
    ∧ ¬ is_Some (event !! "data_capture_location").
Proof.
  destruct (api_byom_event_keys ∅ "byom_batch_custom" false false)
    as (event & Hev & _ & _ & _ & Hcapture & _ & Hcustom).
  - apply str_in_spec. reflexivity.
  - exists event. split; [exact Hev |]. split.
    + apply Hcustom. apply str_in_spec. reflexivity.
    + intros Hsome. apply Hcapture, str_in_spec in Hsome. discriminate.
Defined.

End fixtures.

(** ** The SageMaker policy statement *)

Section iam_policies.

Import IamPolicies.

Variables PARTITION REGION ACCOUNT_ID : string.
Variable conditions : string → bool.

(** C2. Whatever the endpoint name parameter and the condition, a statement
    for a pipeline that is not realtime allows creating, describing and
    deleting models on the [mlopssagemakermodel*] ARN and nothing else; a
    realtime one adds the six endpoint-config and endpoint actions, the
    [mlopssagemakerendpointconfig*] ARN and one endpoint ARN, built from the
    provided name when the condition holds and from
    ["mlopssagemakerendpoint*"] otherwise. *)
Theorem sagemaker_policy_statement_spec
    (endpoint_name : CfnParameter) (endpoint_name_provided : CfnCondition) :
  let prefix :=
    "arn:" +:+ PARTITION +:+ ":sagemaker:" +:+ REGION +:+ ":" +:+ ACCOUNT_ID in
  let batch :=
    sagemaker_policy_statement PARTITION REGION ACCOUNT_ID conditions
      false endpoint_name endpoint_name_provided in
  let realtime :=
    sagemaker_policy_statement PARTITION REGION ACCOUNT_ID conditions
      true endpoint_name endpoint_name_provided in
  actions batch =
    ["sagemaker:CreateModel"; "sagemaker:DescribeModel"; "sagemaker:DeleteModel"]
  ∧ resources batch = [prefix +:+ ":model/mlopssagemakermodel*"]
  ∧ actions realtime =
      actions batch ++
        ["sagemaker:CreateEndpointConfig"; "sagemaker:DescribeEndpointConfig";
         "sagemaker:DeleteEndpointConfig"; "sagemaker:CreateEndpoint";
         "sagemaker:DescribeEndpoint"; "sagemaker:DeleteEndpoint"]
  ∧ ∃ endpoint : string,
      resources realtime =
        resources batch ++
          [prefix +:+ ":endpoint-config/mlopssagemakerendpointconfig*";
           prefix +:+ ":endpoint/" +:+ endpoint]
      ∧ (conditions (logical_id endpoint_name_provided) = true →
         endpoint = value_as_string endpoint_name)
      ∧ (conditions (logical_id endpoint_name_provided) = false →
         endpoint = "mlopssagemakerendpoint*").
Proof.
  cbv zeta. unfold sagemaker_policy_statement, sagemaker_arn_prefix, Fn_condition_if.
  cbn [actions resources].
  split_and!; [reflexivity | reflexivity | reflexivity |].
  eexists. split; [reflexivity |].
  destruct (conditions (logical_id endpoint_name_provided)); split; congruence.
Qed.

End iam_policies.

Lemma sagemaker_policy_statement_spec_witness :
  let conditions := λ id : string, String.eqb id "EndpointNameProvided" in
  let statement provided :=
    IamPolicies.sagemaker_policy_statement "aws" "us-east-1" "123456789012" conditions
      true {| IamPolicies.value_as_string := "my-endpoint" |}
      {| IamPolicies.logical_id := provided |} in
  last (IamPolicies.resources (statement "EndpointNameProvided")) =
    Some "arn:aws:sagemaker:us-east-1:123456789012:endpoint/my-endpoint"
  ∧ last (IamPolicies.resources (statement "Other")) =
    Some "arn:aws:sagemaker:us-east-1:123456789012:endpoint/mlopssagemakerendpoint*".
Proof.
  cbv zeta. split.
  - destruct (sagemaker_policy_statement_spec "aws" "us-east-1" "123456789012"
                (λ id : string, String.eqb id "EndpointNameProvided")
                {| IamPolicies.value_as_string := "my-endpoint" |}
                {| IamPolicies.logical_id := "EndpointNameProvided" |})
      as (_ & _ & _ & endpoint & Hres & Hyes & _).
    rewrite Hres, (Hyes eq_refl). reflexivity.
  - destruct (sagemaker_policy_statement_spec "aws" "us-east-1" "123456789012"
                (λ id : string, String.eqb id "EndpointNameProvided")
                {| IamPolicies.value_as_string := "my-endpoint" |}
                {| IamPolicies.logical_id := "Other" |})
      as (_ & _ & _ & endpoint & Hres & _ & Hno).
    rewrite Hres, (Hno eq_refl). reflexivity.
Defined.

(** ** Environment of the baseline-job function *)

Section deploy_actions.

Import IamPolicies DeployActions.

Variable arn_of_role : string → string.
Variable jsii_error : exn.

(** C3. A call of [create_baseline_job_lambda] creates the function unless
    [monitoring_type] is ["ModelQuality"] and one of the five attributes is
    [None], where [lambda_.Function] refuses the environment and raises. The
    environment of every created function holds [PROBLEM_TYPE],
    [GROUND_TRUTH_ATTRIBUTE], [INFERENCE_ATTRIBUTE], [PROBABILITY_ATTRIBUTE]
    and [PROBABILITY_THRESHOLD_ATTRIBUTE] exactly when [monitoring_type] is
    ["ModelQuality"], and the thirteen base variables for every
    [monitoring_type]. *)
Theorem create_baseline_job_lambda_environment
    (blueprint_bucket assets_bucket : Bucket)
    (monitoring_type baseline_job_name baseline_data_location
     baseline_job_output_location endpoint_name instance_type
     instance_volume_size max_runtime_seconds kms_key_arn stack_name : string)
    (sm_layer : LayerVersion)
    (problem_type ground_truth_attribute inference_attribute
     probability_attribute probability_threshold_attribute : option string) :
  let created :=
    create_baseline_job_lambda arn_of_role jsii_error blueprint_bucket
      assets_bucket monitoring_type baseline_job_name baseline_data_location
      baseline_job_output_location endpoint_name instance_type
      instance_volume_size max_runtime_seconds kms_key_arn stack_name sm_layer
      problem_type ground_truth_attribute inference_attribute
      probability_attribute probability_threshold_attribute in
  ((∃ f, created = Ok f) ↔
     monitoring_type ≠ "ModelQuality"
     ∨ Forall is_Some
         [problem_type; ground_truth_attribute; inference_attribute;
          probability_attribute; probability_threshold_attribute])
  ∧ ((¬ ∃ f, created = Ok f) → created = Raise jsii_error)
  ∧ ∀ f, created = Ok f →
      Forall (λ k, is_Some (environment f !! k) ↔ monitoring_type = "ModelQuality")
        ["PROBLEM_TYPE"; "GROUND_TRUTH_ATTRIBUTE"; "INFERENCE_ATTRIBUTE";
         "PROBABILITY_ATTRIBUTE"; "PROBABILITY_THRESHOLD_ATTRIBUTE"]
      ∧ Forall (λ k, is_Some (environment f !! k))
          ["MONITORING_TYPE"; "BASELINE_JOB_NAME"; "ASSETS_BUCKET";
           "SAGEMAKER_ENDPOINT_NAME"; "BASELINE_DATA_LOCATION";
           "BASELINE_JOB_OUTPUT_LOCATION"; "INSTANCE_TYPE"; "INSTANCE_VOLUME_SIZE";
           "MAX_RUNTIME_SECONDS"; "ROLE_ARN"; "KMS_KEY_ARN"; "STACK_NAME"; "LOG_LEVEL"]
      ∧ environment f !! "MONITORING_TYPE" = Some monitoring_type.
Proof.
  unfold create_baseline_job_lambda, lambda_Function. cbv zeta.
  destruct (String.eqb_spec monitoring_type "ModelQuality") as [-> | Hne].
  - case_bool_decide as Hall; cbn [mbind result_bind mret result_ret].
    + assert (Hgiven : Forall is_Some
                [problem_type; ground_truth_attribute; inference_attribute;
                 probability_attribute; probability_threshold_attribute]).
      { each_key;
          [ apply (Hall "PROBLEM_TYPE") | apply (Hall "GROUND_TRUTH_ATTRIBUTE")
          | apply (Hall "INFERENCE_ATTRIBUTE") | apply (Hall "PROBABILITY_ATTRIBUTE")
          | apply (Hall "PROBABILITY_THRESHOLD_ATTRIBUTE") ];
          map_lookup; reflexivity. }
      split_and!.
      * split; [intros _; by right | intros _; by eexists].
      * intros Hnone. exfalso. apply Hnone. by eexists.
      * intros f [= <-]. cbn [environment].
        rewrite !Forall_cons in Hgiven.
        destruct Hgiven as ([? ->] & [? ->] & [? ->] & [? ->] & [? ->] & _).
        split_and!; [each_key .. |]; rewrite lookup_omap; map_lookup;
          try done; by split.
    + split_and!.
      * split; [by intros [f [=]] |].
        intros [Hne | Hgiven]; [done |]. exfalso. apply Hall.
        rewrite !Forall_cons in Hgiven.
        destruct Hgiven as (? & ? & ? & ? & ? & _).
        repeat (apply map_Forall_insert_2; [first [assumption | by eexists] |]).
        apply map_Forall_empty.
      * done.
      * by intros f [=].
  - case_bool_decide as Hall; cbn [mbind result_bind mret result_ret].
    + split_and!.
      * split; [intros _; by left | intros _; by eexists].
      * intros Hnone. exfalso. apply Hnone. by eexists.
      * intros f [= <-]. cbn [environment].
        split_and!; [each_key .. |]; rewrite lookup_omap; map_lookup;
          try done; (split; [by intros [? ?] | done]).
    + exfalso. apply Hall.
      repeat (apply map_Forall_insert_2; [by eexists |]). apply map_Forall_empty.
Qed.

End deploy_actions.

Lemma create_baseline_job_lambda_environment_witness :
  ∃ f,
    DeployActions.create_baseline_job_lambda
      (λ id, "arn:aws:iam::123456789012:role/" +:+ id) (OtherException "JSIIError")
      {| DeployActions.bucket_name := "blueprints" |}
      {| DeployActions.bucket_name := "assets" |}
      "ModelQuality" "baseline-job" "data/baseline.csv" "baseline/output"
      "my-endpoint" "ml.m5.large" "20" "3600" "kms-key" "mlops-stack"
      {| DeployActions.layer_id := "sagemaker_layer" |}
      (Some "Regression") (Some "label") (Some "prediction") (Some "probability")
      (Some "0.5") = Ok f
    ∧ is_Some (DeployActions.environment f !! "PROBLEM_TYPE")
    ∧ DeployActions.environment f !! "MONITORING_TYPE" = Some "ModelQuality".
Proof.
  destruct (create_baseline_job_lambda_environment
              (λ id, "arn:aws:iam::123456789012:role/" +:+ id)
              (OtherException "JSIIError")
              {| DeployActions.bucket_name := "blueprints" |}
              {| DeployActions.bucket_name := "assets" |}
              "ModelQuality" "baseline-job" "data/baseline.csv" "baseline/output"
              "my-endpoint" "ml.m5.large" "20" "3600" "kms-key" "mlops-stack"
              {| DeployActions.layer_id := "sagemaker_layer" |}
              (Some "Regression") (Some "label") (Some "prediction")
              (Some "probability") (Some "0.5"))
    as (Hcreated & _ & Hkeys).
  destruct (proj2 Hcreated) as [f Hf].
  { right. repeat constructor; by eexists. }
  exists f. split; [exact Hf |].
  destruct (Hkeys f Hf) as (Hquality & _ & Hmonitoring).
  split; [| exact Hmonitoring].
  apply Forall_cons in Hquality. destruct Hquality as [Hproblem _].
  by apply Hproblem.
Defined.

(** ** Running statements under an invariant *)

Section keeps.

Context {St : Type} (I : St → Prop).

Lemma keeps_ret {A} (a : A) (post : A → Prop) :
  post a → keeps I (mret a) post.
Proof. intros Ha s Hs. split; [exact Hs |]. intros a' [= <-]. exact Ha. Qed.

Lemma keeps_bind {A B} (m : M St A) (k : A → M St B)
    (mid : A → Prop) (post : B → Prop) :
  keeps I m mid → (∀ a, mid a → keeps I (k a) post) → keeps I (m ≫= k) post.
Proof.
  intros Hm Hk s Hs. destruct (Hm s Hs) as [Hinv Hmid].
  unfold mbind, M_bind. destruct (m s) as [[a | e] s1]; cbn in *.
  - apply (Hk a); auto.
  - split; [exact Hinv | intros b [=]].
Qed.

Lemma keeps_try_except {A} (body : M St A) (handler : exn → M St A)
    (post : A → Prop) :
  keeps I body post → (∀ e, keeps I (handler e) post) →
  keeps I (try_except body handler) post.
Proof.
  intros Hbody Hhandler s Hs. destruct (Hbody s Hs) as [Hinv Hpost].
  unfold try_except. destruct (body s) as [[a | e] s1]; cbn in *.
  - split; [exact Hinv | intros a' [= <-]; auto].
  - apply Hhandler, Hinv.
Qed.

Lemma keeps_weaken {A} (m : M St A) (post post' : A → Prop) :
  keeps I m post → (∀ a, post a → post' a) → keeps I m post'.
Proof.
  intros Hm Himp s Hs. destruct (Hm s Hs) as [Hinv Hpost]. split; auto.
Qed.

End keeps.

(** ** The solution helper *)

Section solution_helper.

Import SolutionHelper.

Variable uuid4 : nat → string.
Variable utcnow_isoformat : string.
Variable requests_post : string → gmap loc object → value → value → result Response.

Lemma eq_str_spec v lit : eq_str v lit = true ↔ v = VStr lit.
Proof.
  destruct v; cbn; try (split; [discriminate | congruence]).
  rewrite String.eqb_eq. split; congruence.
Qed.

Lemma eq_str_false v lit : eq_str v lit = false ↔ v ≠ VStr lit.
Proof.
  rewrite <- eq_str_spec. destruct (eq_str v lit); split; congruence.
Qed.

Lemma unchanged_since_refl s : unchanged_since s s.
Proof.
  split_and!; auto. exists []. split; [by rewrite app_nil_r | constructor].
Qed.

(** *** What each primitive does to the objects of an earlier state *)

Lemma subscript_state v key s : (subscript v key s).2 = s.
Proof.
  unfold subscript. destruct v as [| | | | l]; try done.
  destruct (heap s !! l) as [[d | xs] |]; try done.
  by destruct (d !! key).
Qed.

Lemma len_state v s : (len v s).2 = s.
Proof.
  unfold len. destruct v as [| | | | l]; try done.
  by destruct (heap s !! l) as [[d | xs] |].
Qed.

Lemma keeps_subscript s0 v key :
  keeps (unchanged_since s0) (subscript v key) (λ _, True).
Proof. intros s Hs. by rewrite subscript_state. Qed.

Lemma keeps_len s0 v : keeps (unchanged_since s0) (len v) (λ _, True).
Proof. intros s Hs. by rewrite len_state. Qed.

Lemma unchanged_since_output s0 s c :
  is_output c → unchanged_since s0 s →
  unchanged_since s0
    (State (heap s) (helper_Data s) (uuids_drawn s) (calls s ++ [c])).
Proof.
  intros Hc (Hheap & Hdata & Huuid & out & Hcalls & Hout).
  split_and!; cbn; auto. exists (out ++ [c]). split.
  - by rewrite Hcalls, app_assoc.
  - apply Forall_app. split; [exact Hout | by constructor].
Qed.

Lemma keeps_record s0 c :
  is_output c → keeps (unchanged_since s0) (record c) (λ _, True).
Proof. intros Hc s Hs. split; [| done]. by apply unchanged_since_output. Qed.

Lemma keeps_post s0 url json headers :
  keeps (unchanged_since s0) (post requests_post url json headers) (λ _, True).
Proof. intros s Hs. split; [| done]. by apply unchanged_since_output. Qed.

Lemma unchanged_since_alloc s0 s o :
  unchanged_since s0 s →
  unchanged_since s0 (set_heap (<[fresh (dom (heap s)) := o]> (heap s)) s)
  ∧ fresh_since s0 (VRef (fresh (dom (heap s)))).
Proof.
  intros (Hheap & Hdata & Huuid & Hcalls).
  assert (heap s !! fresh (dom (heap s)) = None) as Hfresh
    by (apply not_elem_of_dom, is_fresh).
  split.
  - split_and!; cbn; auto. intros l o' Hl.
    rewrite lookup_insert_ne; [by apply Hheap |].
    intros <-. apply Hheap in Hl. congruence.
  - intros l [= <-]. destruct (heap s0 !! fresh (dom (heap s))) eqn:Hl; [| done].
    apply Hheap in Hl. congruence.
Qed.

Lemma keeps_new_dict s0 d :
  keeps (unchanged_since s0) (new_dict d) (fresh_since s0).
Proof.
  intros s Hs. destruct (unchanged_since_alloc s0 s (Dict d) Hs) as [Hinv Hfresh].
  split; [exact Hinv |]. by intros a [= <-].
Qed.

Lemma keeps_copy s0 v :
  keeps (unchanged_since s0) (copy v) (fresh_since s0).
Proof.
  intros s Hs. unfold copy.
  destruct v as [| | | | l]; try (split; [done | by intros a [= <-] l' [=]]).
  destruct (heap s !! l) as [o |] eqn:Hl; cbn.
  - destruct (unchanged_since_alloc s0 s o Hs) as [Hinv Hfresh].
    split; [exact Hinv |]. by intros a [= <-].
  - split; [done | by intros a [=]].
Qed.

Lemma unchanged_since_write s0 s l o :
  heap s0 !! l = None → unchanged_since s0 s →
  unchanged_since s0 (set_heap (<[l := o]> (heap s)) s).
Proof.
  intros Hl (Hheap & Hdata & Huuid & Hcalls). split_and!; cbn; auto.
  intros l' o' Hl'. rewrite lookup_insert_ne; [by apply Hheap | congruence].
Qed.

Lemma keeps_pop s0 v key :
  fresh_since s0 v → keeps (unchanged_since s0) (pop v key) (λ r, True).
Proof.
  intros Hv s Hs. unfold pop. destruct v as [| | | | l]; try done.
  destruct (heap s !! l) as [[d | xs] |]; try done.
  split; [| done]. apply unchanged_since_write; auto.
Qed.

Lemma keeps_setitem s0 v key x :
  fresh_since s0 v → keeps (unchanged_since s0) (setitem v key x) (λ _, True).
Proof.
  intros Hv s Hs. unfold setitem. destruct v as [| | | | l]; try done.
  destruct (heap s !! l) as [[d | xs] |]; try done.
  split; [| done]. apply unchanged_since_write; auto.
Qed.

Lemma keeps_sanitize_data s0 v :
  fresh_since s0 v →
  keeps (unchanged_since s0) (_sanitize_data v) (fresh_since s0).
Proof.
  intros Hv. unfold _sanitize_data.
  repeat (eapply keeps_bind; [by apply keeps_pop | intros _ _]).
  by apply keeps_ret.
Qed.

Lemma keeps_send_metrics s0 request_type resource_properties :
  keeps (unchanged_since s0)
    (send_metrics utcnow_isoformat requests_post request_type resource_properties)
    (λ _, True).
Proof.
  unfold send_metrics.
  eapply keeps_bind; [apply keeps_copy | intros copied Hcopied].
  eapply keeps_bind; [by apply keeps_sanitize_data | intros metrics_data Hdata].
  eapply keeps_bind; [by apply keeps_setitem | intros _ _].
  eapply keeps_bind; [apply keeps_new_dict | intros headers _].
  eapply keeps_bind; [apply keeps_subscript | intros git _].
  eapply keeps_bind; [apply keeps_len | intros n _].
  eapply keeps_bind; [apply keeps_subscript | intros bucket _].
  eapply keeps_bind; [apply keeps_len | intros n' _].
  eapply keeps_bind; [apply keeps_subscript | intros solution_id _].
  eapply keeps_bind; [apply keeps_subscript | intros uuid _].
  eapply keeps_bind; [apply keeps_new_dict | intros payload _].
  eapply keeps_bind; [by apply keeps_record | intros _ _].
  eapply keeps_bind; [apply keeps_post | intros response _].
  by apply keeps_record.
Qed.

Lemma keeps_send_metrics_except s0 e :
  keeps (unchanged_since s0) (send_metrics_except e) (λ _, True).
Proof. destruct e; by apply keeps_record. Qed.

(** *** Reading a well-formed event *)

Lemma subscript_dict s l d key x :
  heap s !! l = Some (Dict d) → d !! key = Some x →
  subscript (VRef l) key s = (Ok x, s).
Proof. intros Hl Hkey. unfold subscript. by rewrite Hl, Hkey. Qed.

Lemma pop_dict s l d key :
  heap s !! l = Some (Dict d) →
  pop (VRef l) key s =
    (Ok (default VNone (d !! key)),
     set_heap (<[l := Dict (delete key d)]> (heap s)) s).
Proof. intros Hl. unfold pop. by rewrite Hl. Qed.

(** C8. On a dictionary, [_sanitize_data] returns the very object it was
    given, never raises, and leaves in it every item but those under
    [ServiceToken], [Resource], [SolutionId] and [UUID]; nothing else in
    the state changes. *)
Theorem sanitize_data_removes_four_keys
    (s : state) (l : loc) (d : gmap string value) :
  heap s !! l = Some (Dict d) →
  ∃ d' : gmap string value,
    _sanitize_data (VRef l) s = (Ok (VRef l), set_heap (<[l := Dict d']> (heap s)) s)
    ∧ ∀ key,
        d' !! key =
          if bool_decide (key ∈ ["ServiceToken"; "Resource"; "SolutionId"; "UUID"])
          then None else d !! key.
Proof.
  intros Hl.
  exists (delete "UUID" (delete "SolutionId" (delete "Resource" (delete "ServiceToken" d)))).
  split.
  - unfold _sanitize_data, mbind, M_bind.
    rewrite (pop_dict s l d) by done.
    erewrite pop_dict by (cbn; apply lookup_insert_eq).
    erewrite pop_dict by (cbn; apply lookup_insert_eq).
    erewrite pop_dict by (cbn; apply lookup_insert_eq).
    cbn. unfold set_heap. cbn. by rewrite !insert_insert_eq.
  - intros key. case_bool_decide as Hkey.
    + repeat (apply elem_of_cons in Hkey as [-> | Hkey]);
        [.. | by apply elem_of_nil in Hkey];
        repeat first [apply lookup_delete_eq | rewrite lookup_delete_ne by done].
    + rewrite !lookup_delete_ne; [done | ..]; intros <-; apply Hkey;
        apply str_in_spec; reflexivity.
Qed.

(** The [AnonymousMetric] branch, from any state. *)
Lemma custom_resource_metrics_branch s l_event l_props event props request_type :
  heap s !! l_event = Some (Dict event) →
  event !! "RequestType" = Some request_type →
  event !! "ResourceProperties" = Some (VRef l_props) →
  heap s !! l_props = Some (Dict props) →
  props !! "Resource" = Some (VStr "AnonymousMetric") →
  custom_resource uuid4 utcnow_isoformat requests_post (VRef l_event) s =
    try_except
      (send_metrics utcnow_isoformat requests_post request_type (VRef l_props))
      send_metrics_except s.
Proof.
  intros Hev Htype Hprops Hlp Hres. unfold custom_resource, mbind, M_bind.
  rewrite (subscript_dict s l_event event "RequestType" request_type) by done.
  rewrite (subscript_dict s l_event event "ResourceProperties" (VRef l_props)) by done.
  rewrite (subscript_dict s l_props props "Resource" (VStr "AnonymousMetric")) by done.
  reflexivity.
Qed.

(** [custom_resource] never changes an object it was given, and touches
    [helper.Data] in the UUID branch only. *)
Lemma custom_resource_objects s event :
  ∀ l o, heap s !! l = Some o →
    heap (custom_resource uuid4 utcnow_isoformat requests_post event s).2 !! l = Some o.
Proof.
  intros l o Hl. unfold custom_resource, mbind, M_bind.
  pose proof (subscript_state event "RequestType" s) as H1.
  destruct (subscript event "RequestType" s) as [[request_type | e] s1];
    cbn in H1; subst s1; [| done].
  pose proof (subscript_state event "ResourceProperties" s) as H2.
  destruct (subscript event "ResourceProperties" s) as [[resource_properties | e] s1];
    cbn in H2; subst s1; [| done].
  pose proof (subscript_state resource_properties "Resource" s) as H3.
  destruct (subscript resource_properties "Resource" s) as [[resource | e] s1];
    cbn in H3; subst s1; [| done].
  destruct (eq_str resource "UUID" && eq_str request_type "Create"); [done |].
  destruct (eq_str resource "AnonymousMetric"); [| done].
  destruct (keeps_try_except (unchanged_since s) _ _ (λ _, True)
              (keeps_send_metrics s request_type resource_properties)
              (keeps_send_metrics_except s) s (unchanged_since_refl s))
    as [(Hheap & _) _].
  by apply Hheap.
Qed.

(** [helper.Data] is written in the UUID branch only, where the drawn
    identifier is stored under ["UUID"]. *)
Lemma custom_resource_helper_data s event :
  helper_Data (custom_resource uuid4 utcnow_isoformat requests_post event s).2
    = helper_Data s
  ∨ ∃ resource_properties,
      subscript event "RequestType" s = (Ok (VStr "Create"), s)
      ∧ subscript event "ResourceProperties" s = (Ok resource_properties, s)
      ∧ subscript resource_properties "Resource" s = (Ok (VStr "UUID"), s)
      ∧ helper_Data (custom_resource uuid4 utcnow_isoformat requests_post event s).2
          = <["UUID" := VStr (uuid4 (uuids_drawn s))]> (helper_Data s).
Proof.
  unfold custom_resource, mbind, M_bind.
  pose proof (subscript_state event "RequestType" s) as H1.
  destruct (subscript event "RequestType" s) as [[request_type | e] s1] eqn:Htype;
    cbn in H1; subst s1; [| by left].
  pose proof (subscript_state event "ResourceProperties" s) as H2.
  destruct (subscript event "ResourceProperties" s)
    as [[resource_properties | e] s1] eqn:Hprops;
    cbn in H2; subst s1; [| by left].
  pose proof (subscript_state resource_properties "Resource" s) as H3.
  destruct (subscript resource_properties "Resource" s)
    as [[resource | e] s1] eqn:Hres;
    cbn in H3; subst s1; [| by left].
  destruct (eq_str resource "UUID") eqn:Huuid,
           (eq_str request_type "Create") eqn:Hcreate; cbn [andb].
  1: { apply eq_str_spec in Huuid, Hcreate. subst resource request_type.
       right. by exists resource_properties. }
  all: destruct (eq_str resource "AnonymousMetric"); [| by left].
  all: destruct (keeps_try_except (unchanged_since s) _ _ (λ _, True)
              (keeps_send_metrics s request_type resource_properties)
              (keeps_send_metrics_except s) s (unchanged_since_refl s))
    as [(_ & Hdata & _) _]; by left.
Qed.


(** C9. Handling an [AnonymousMetric] event returns normally whatever
    happens while the payload is built or posted: an exception raised there
    is logged, as a failure to send when it is a request exception, and is
    not passed on. *)
Theorem custom_resource_metrics_returns
    (s : state) (l_event l_props : loc) (event props : gmap string value)
    (request_type : value) :
  heap s !! l_event = Some (Dict event) →
  event !! "RequestType" = Some request_type →
  event !! "ResourceProperties" = Some (VRef l_props) →
  heap s !! l_props = Some (Dict props) →
  props !! "Resource" = Some (VStr "AnonymousMetric") →
  let run := custom_resource uuid4 utcnow_isoformat requests_post (VRef l_event) s in
  run.1 = Ok ()
  ∧ ∀ e s1,
      send_metrics utcnow_isoformat requests_post request_type (VRef l_props) s
        = (Raise e, s1) →
      ∃ msg,
        run.2 = State (heap s1) (helper_Data s1) (uuids_drawn s1)
                  (calls s1 ++ [LoggerException msg])
        ∧ (e = RequestException ↔ msg = "Could not send usage data").
Proof.
  intros Hev Htype Hprops Hlp Hres run. subst run.
  rewrite (custom_resource_metrics_branch s l_event l_props event props
             request_type) by done.
  unfold try_except.
  destruct (send_metrics _ _ _ _ s) as [[[] | e] s1]; cbn.
  - split; [done | intros e s2 [=]].
  - split; [by destruct e |]. intros e' s2 [= <- <-].
    destruct e; cbn; eexists; (split; [reflexivity |]); split; done.
Qed.

(** C10. A UUID is drawn and stored in [helper.Data] under ["UUID"] exactly
    when the resource is ["UUID"] and the request type is ["Create"]; for
    any other request type with resource ["UUID"], and for a resource that
    is neither ["UUID"] nor ["AnonymousMetric"], the handler does nothing. *)
Theorem custom_resource_uuid
    (s : state) (l_event l_props : loc) (event props : gmap string value)
    (request_type resource : value) :
  heap s !! l_event = Some (Dict event) →
  event !! "RequestType" = Some request_type →
  event !! "ResourceProperties" = Some (VRef l_props) →
  heap s !! l_props = Some (Dict props) →
  props !! "Resource" = Some resource →
  let run := custom_resource uuid4 utcnow_isoformat requests_post (VRef l_event) s in
  let random_id := uuid4 (uuids_drawn s) in
  (resource = VStr "UUID" ∧ request_type = VStr "Create" →
   run = (Ok (),
          State (heap s) (<["UUID" := VStr random_id]> (helper_Data s))
            (S (uuids_drawn s))
            (calls s ++ [Uuid4 random_id; HelperDataUpdate "UUID" (VStr random_id)])))
  ∧ (¬ (resource = VStr "UUID" ∧ request_type = VStr "Create") →
     helper_Data run.2 = helper_Data s
     ∧ uuids_drawn run.2 = uuids_drawn s
     ∧ ∃ out, calls run.2 = calls s ++ out ∧ Forall is_output out)
  ∧ (resource = VStr "UUID" → request_type ≠ VStr "Create" → run = (Ok (), s))
  ∧ (resource ≠ VStr "UUID" → resource ≠ VStr "AnonymousMetric" →
     run = (Ok (), s)).
Proof.
  intros Hev Htype Hprops Hlp Hres run random_id.
  assert (run =
    (if eq_str resource "UUID" && eq_str request_type "Create" then
       random_id ← str_uuid4 uuid4; helper_Data_update "UUID" (VStr random_id)
     else if eq_str resource "AnonymousMetric" then
       try_except
         (send_metrics utcnow_isoformat requests_post request_type (VRef l_props))
         send_metrics_except
     else mret ()) s) as Hrun.
  { subst run. unfold custom_resource, mbind at 1 2 3, M_bind.
    rewrite (subscript_dict s l_event event "RequestType" request_type) by done.
    rewrite (subscript_dict s l_event event "ResourceProperties" (VRef l_props)) by done.
    rewrite (subscript_dict s l_props props "Resource" resource) by done.
    reflexivity. }
  clearbody run. subst run.
  destruct (eq_str resource "UUID") eqn:Huuid;
    destruct (eq_str request_type "Create") eqn:Hcreate; cbn [andb].
  - apply eq_str_spec in Huuid, Hcreate. subst.
    split_and!; [| by intros [] | done | done].
    intros _. unfold mbind, M_bind, str_uuid4, helper_Data_update. cbn.
    by rewrite <- app_assoc.
  - apply eq_str_spec in Huuid. subst resource. cbn.
    assert (request_type ≠ VStr "Create") as Hne by (by apply eq_str_false).
    split_and!; [by intros [_ ?] | | done | done].
    intros _. split_and!; [done | done |]. exists []. by rewrite app_nil_r.
  - assert (resource ≠ VStr "UUID") as Hne by (by apply eq_str_false).
    split_and!; [by intros [? _] | | done |].
    + intros _. destruct (eq_str resource "AnonymousMetric").
      * destruct (keeps_try_except (unchanged_since s) _ _ (λ _, True)
              (keeps_send_metrics s request_type (VRef l_props))
              (keeps_send_metrics_except s) s (unchanged_since_refl s))
          as [(_ & Hdata & Hdrawn & Hout) _]; done.
      * split_and!; [done | done |]. exists []. by rewrite app_nil_r.
    + intros _ Hmetric. destruct (eq_str resource "AnonymousMetric") eqn:Heq; [| done].
      by apply eq_str_spec in Heq.
  - assert (resource ≠ VStr "UUID") as Hne by (by apply eq_str_false).
    split_and!; [by intros [? _] | | done |].
    + intros _. destruct (eq_str resource "AnonymousMetric").
      * destruct (keeps_try_except (unchanged_since s) _ _ (λ _, True)
              (keeps_send_metrics s request_type (VRef l_props))
              (keeps_send_metrics_except s) s (unchanged_since_refl s))
          as [(_ & Hdata & Hdrawn & Hout) _]; done.
      * split_and!; [done | done |]. exists []. by rewrite app_nil_r.
    + intros _ Hmetric. destruct (eq_str resource "AnonymousMetric") eqn:Heq; [| done].
      by apply eq_str_spec in Heq.
Qed.

End solution_helper.

(** *** The sample invocation *)

Section sample.

Import SolutionHelper.

(** With the endpoint up: one payload logged and posted, the answer logged;
    the posted [Data] is the sanitized copy, the event's own properties
    still hold all seven keys. *)
Example sample_run_endpoint_ok :
  let run :=
    custom_resource sample_uuid4 sample_utcnow endpoint_ok (VRef 1%positive)
      (sample_state "Create" sample_properties) in
  run.1 = Ok ()
  ∧ calls run.2 =
      [LoggerInfo "Sending payload: " [VRef 5%positive];
       RequestsPost "https://metrics.awssolutionsbuilder.com/generic"
         (VRef 5%positive) (VRef 4%positive);
       LoggerInfo "Response from metrics endpoint: " [VInt 200; VStr "OK"]]
  ∧ keys_at run.2 3%positive =
      Some ["gitSelected"; "Region"; "RequestType"; "bucketSelected"]
  ∧ keys_at run.2 2%positive =
      Some ["gitSelected"; "SolutionId"; "ServiceToken"; "UUID"; "Region";
            "Resource"; "bucketSelected"].
Proof. vm_compute. done. Qed.

(** With the endpoint out of reach the failure is logged. *)
Example sample_run_endpoint_down :
  let run :=
    custom_resource sample_uuid4 sample_utcnow endpoint_down (VRef 1%positive)
      (sample_state "Update" sample_properties) in
  run.1 = Ok ()
  ∧ last (calls run.2) = Some (LoggerException "Could not send usage data").
Proof. vm_compute. done. Qed.

(** Without [gitSelected] the payload cannot be built; that is logged too. *)
Example sample_run_key_error :
  let run :=
    custom_resource sample_uuid4 sample_utcnow endpoint_ok (VRef 1%positive)
      (sample_state "Delete" (delete "gitSelected" sample_properties)) in
  run.1 = Ok ()
  ∧ calls run.2 =
      [LoggerException "Unknown error when trying to send usage data"].
Proof. vm_compute. done. Qed.

End sample.

Lemma sanitize_data_removes_four_keys_witness :
  ∃ d' : gmap string SolutionHelper.value,
    (SolutionHelper._sanitize_data (SolutionHelper.VRef 2%positive)
       (SolutionHelper.sample_state "Create" SolutionHelper.sample_properties)).1
      = Ok (SolutionHelper.VRef 2%positive)
    ∧ d' !! "ServiceToken" = None
    ∧ d' !! "Region" = Some (SolutionHelper.VStr "us-east-1").
Proof.
  destruct (sanitize_data_removes_four_keys
              (SolutionHelper.sample_state "Create" SolutionHelper.sample_properties)
              2%positive SolutionHelper.sample_properties)
    as (d' & Hrun & Hkeys).
  - reflexivity.
  - exists d'. rewrite Hrun. split; [reflexivity |]. split.
    + rewrite Hkeys. reflexivity.
    + rewrite Hkeys. reflexivity.
Defined.



Lemma custom_resource_metrics_returns_witness :
  (SolutionHelper.custom_resource SolutionHelper.sample_uuid4
     SolutionHelper.sample_utcnow SolutionHelper.endpoint_down
     (SolutionHelper.VRef 1%positive)
     (SolutionHelper.sample_state "Update" SolutionHelper.sample_properties)).1
  = Ok ().
Proof.
  apply (custom_resource_metrics_returns SolutionHelper.sample_uuid4
           SolutionHelper.sample_utcnow SolutionHelper.endpoint_down
           (SolutionHelper.sample_state "Update" SolutionHelper.sample_properties)
           1%positive 2%positive (SolutionHelper.sample_event "Update")
           SolutionHelper.sample_properties (SolutionHelper.VStr "Update"));
    reflexivity.
Defined.

Lemma custom_resource_uuid_witness :
  let uuid_properties : gmap string SolutionHelper.value :=
    <["Resource" := SolutionHelper.VStr "UUID"]> ∅ in
  SolutionHelper.helper_Data
    (SolutionHelper.custom_resource SolutionHelper.sample_uuid4
       SolutionHelper.sample_utcnow SolutionHelper.endpoint_ok
       (SolutionHelper.VRef 1%positive)
       (SolutionHelper.sample_state "Create" uuid_properties)).2
    !! "UUID"
  = Some (SolutionHelper.VStr (SolutionHelper.sample_uuid4 0))
  ∧ SolutionHelper.custom_resource SolutionHelper.sample_uuid4
      SolutionHelper.sample_utcnow SolutionHelper.endpoint_ok
      (SolutionHelper.VRef 1%positive)
      (SolutionHelper.sample_state "Delete" uuid_properties)
    = (Ok (), SolutionHelper.sample_state "Delete" uuid_properties).
Proof.
  cbv zeta. split.
  - destruct (custom_resource_uuid SolutionHelper.sample_uuid4
                SolutionHelper.sample_utcnow SolutionHelper.endpoint_ok
                (SolutionHelper.sample_state "Create"
                   (<["Resource" := SolutionHelper.VStr "UUID"]> ∅))
                1%positive 2%positive (SolutionHelper.sample_event "Create")
                (<["Resource" := SolutionHelper.VStr "UUID"]> ∅)
                (SolutionHelper.VStr "Create") (SolutionHelper.VStr "UUID"))
      as (Hcreate & _); [reflexivity .. |].
    rewrite (Hcreate (conj eq_refl eq_refl)). apply lookup_insert_eq.
  - destruct (custom_resource_uuid SolutionHelper.sample_uuid4
                SolutionHelper.sample_utcnow SolutionHelper.endpoint_ok
                (SolutionHelper.sample_state "Delete"
                   (<["Resource" := SolutionHelper.VStr "UUID"]> ∅))
                1%positive 2%positive (SolutionHelper.sample_event "Delete")
                (<["Resource" := SolutionHelper.VStr "UUID"]> ∅)
                (SolutionHelper.VStr "Delete") (SolutionHelper.VStr "UUID"))
      as (_ & _ & Hother & _); [reflexivity .. |].
    apply Hother; [reflexivity | discriminate].
Defined.

(** ** The inference handler *)

Section inference.

Import InferenceLambda.

Variable environ : gmap string string.
Variable json_loads : string → result json.
Variable bytes_decode : list Byte.byte → result string.
Variable sm_invoke_endpoint : InvokeEndpoint → result InvokeEndpointOutput.
Variable LambdaContext : Type.
Variable api_exception_handler :
  (json → LambdaContext → M state json) → json → LambdaContext → M state json.

(** Up to the answer of the endpoint: the undecorated function asks the
    endpoint once, whatever it answers. *)
Lemma handler_body_calls_endpoint_once
    (event event_body : gmap string json) (context : LambdaContext) (s : state)
    (text endpoint_name : string) (payload content_type : json) :
  event !! "body" = Some (JStr text) →
  json_loads text = Ok (JObj event_body) →
  event_body !! "payload" = Some payload →
  event_body !! "ContentType" = Some content_type →
  environ !! "ENDPOINT_NAME" = Some endpoint_name →
  ∃ rest,
    (handler_body environ json_loads bytes_decode sm_invoke_endpoint LambdaContext
       (JObj event) context s).2
    = s ++ SdkInvokeEndpoint
             {| EndpointName := endpoint_name; Body := payload;
                ContentType := content_type |} :: rest
    ∧ Forall (λ c, ∀ request, c ≠ SdkInvokeEndpoint request) rest.
Proof.
  intros Hbody Hloads Hpayload Htype Hname.
  unfold handler_body, invoke, mbind, M_bind, subscript, loads, os_environ, getitem,
    invoke_endpoint, read_decode, record.
  rewrite Hbody. cbn. rewrite Hloads, Hname, Hpayload. cbn. rewrite Htype. cbn.
  destruct (sm_invoke_endpoint _) as [response | e]; cbn.
  - destruct (bytes_decode _) as [predictions | e]; cbn.
    + rewrite <- !app_assoc. eexists. split; [reflexivity |].
      repeat constructor; discriminate.
    + rewrite <- !app_assoc. eexists. split; [reflexivity |].
      repeat constructor; discriminate.
  - eexists. split; [reflexivity | constructor].
Qed.

(** C1. For an event whose body decodes to a dictionary with the keys
    [payload] and [ContentType], the handler calls [invoke_endpoint] once,
    with the endpoint named by [ENDPOINT_NAME], the payload as [Body] and
    the given [ContentType], and returns status 200, not base64 encoded,
    the decoded bytes of the response's body, and the header
    [Content-Type: plain/text]. The decorator hands a returned value on as
    it is. *)
Theorem handler_invokes_endpoint
    (event event_body : gmap string json) (context : LambdaContext) (s : state)
    (text endpoint_name predictions : string) (payload content_type : json)
    (response : InvokeEndpointOutput) :
  (∀ f ev ctx s0 r s1,
     f ev ctx s0 = (Ok r, s1) → api_exception_handler f ev ctx s0 = (Ok r, s1)) →
  event !! "body" = Some (JStr text) →
  json_loads text = Ok (JObj event_body) →
  event_body !! "payload" = Some payload →
  event_body !! "ContentType" = Some content_type →
  environ !! "ENDPOINT_NAME" = Some endpoint_name →
  sm_invoke_endpoint
    {| EndpointName := endpoint_name; Body := payload; ContentType := content_type |}
    = Ok response →
  bytes_decode (Body_read response) = Ok predictions →
  ∃ returned : gmap string json,
    handler environ json_loads bytes_decode sm_invoke_endpoint LambdaContext
      api_exception_handler (JObj event) context s
    = (Ok (JObj returned),
       s ++ [SdkInvokeEndpoint
               {| EndpointName := endpoint_name; Body := payload;
                  ContentType := content_type |};
             LoggerInfoResponse response;
             LoggerInfo predictions])
    ∧ returned !! "statusCode" = Some (JInt 200)
    ∧ returned !! "isBase64Encoded" = Some (JBool false)
    ∧ returned !! "body" = Some (JStr predictions)
    ∧ returned !! "headers" = Some (JObj {[ "Content-Type" := JStr "plain/text" ]})
    ∧ dom returned = {[ "statusCode"; "isBase64Encoded"; "body"; "headers" ]}.
Proof.
  intros Hwrapper Hbody Hloads Hpayload Htype Hname Hresponse Hdecode.
  eexists. split.
  - unfold handler. apply Hwrapper.
    unfold handler_body, invoke, mbind, M_bind, subscript, loads, os_environ, getitem,
      invoke_endpoint, read_decode, record.
    rewrite Hbody. cbn. rewrite Hloads, Hname, Hpayload. cbn. rewrite Htype. cbn.
    rewrite Hresponse. cbn. rewrite Hdecode. cbn.
    rewrite <- !app_assoc. reflexivity.
  - split_and!; [map_lookup; reflexivity .. |].
    rewrite !dom_insert_L, dom_empty_L. set_solver.
Qed.

End inference.

Lemma handler_invokes_endpoint_witness :
  ∃ returned : gmap string InferenceLambda.json,
    (InferenceLambda.handler InferenceLambda.sample_environ
       InferenceLambda.sample_json_loads InferenceLambda.sample_bytes_decode
       InferenceLambda.sample_endpoint ()
       InferenceLambda.sample_api_exception_handler
       InferenceLambda.sample_api_event () []).1
    = Ok (InferenceLambda.JObj returned)
    ∧ returned !! "body" = Some (InferenceLambda.JStr "0.87").
Proof.
  destruct (handler_invokes_endpoint InferenceLambda.sample_environ
              InferenceLambda.sample_json_loads InferenceLambda.sample_bytes_decode
              InferenceLambda.sample_endpoint ()
              InferenceLambda.sample_api_exception_handler
              (<["body" := InferenceLambda.JStr InferenceLambda.sample_body]>
                 (<["httpMethod" := InferenceLambda.JStr "POST"]> ∅))
              (<["ContentType" := InferenceLambda.JStr "text/csv"]>
                 (<["payload" := InferenceLambda.JStr "1,2,3"]> ∅))
              () [] InferenceLambda.sample_body "mlopssagemakerendpoint-1" "0.87"
              (InferenceLambda.JStr "1,2,3") (InferenceLambda.JStr "text/csv")
              {| InferenceLambda.Body_read := String.list_byte_of_string "0.87" |})
    as (returned & Hrun & _ & _ & Hreturned & _).
  - intros f ev ctx s0 r s1 Hf.
    unfold InferenceLambda.sample_api_exception_handler, try_except.
    rewrite Hf. reflexivity.
  - reflexivity.
  - reflexivity.
  - reflexivity.
  - reflexivity.
  - reflexivity.
  - reflexivity.
  - reflexivity.
  - exists returned. unfold InferenceLambda.sample_api_event.
    rewrite Hrun. split; [reflexivity | exact Hreturned].
Defined.

(** ** More on the solution helper: failures, the payload, repeated sanitizing *)

Section solution_helper_more.

Import SolutionHelper.

Variable uuid4 : nat → string.
Variable utcnow_isoformat : string.
Variable requests_post : string → gmap loc object → value → value → result Response.

(** An object written at a fresh location hides nothing. *)
Lemma lookup_insert_fresh (h : gmap loc object) l o o' :
  h !! l = Some o → <[fresh (dom h) := o']> h !! l = Some o.
Proof.
  intros Hl. rewrite lookup_insert_ne; [done |].
  intros <-. apply (is_fresh (dom h)), elem_of_dom. eauto.
Qed.

Lemma copy_dict s l o :
  heap s !! l = Some o →
  copy (VRef l) s =
    (Ok (VRef (fresh (dom (heap s)))),
     set_heap (<[fresh (dom (heap s)) := o]> (heap s)) s).
Proof. intros Hl. unfold copy. by rewrite Hl. Qed.

Lemma setitem_dict s l d key x :
  heap s !! l = Some (Dict d) →
  setitem (VRef l) key x s =
    (Ok (), set_heap (<[l := Dict (<[key := x]> d)]> (heap s)) s).
Proof. intros Hl. unfold setitem. by rewrite Hl. Qed.

Lemma sanitize_data_dict s l d :
  heap s !! l = Some (Dict d) →
  _sanitize_data (VRef l) s =
    (Ok (VRef l),
     set_heap
       (<[l := Dict (delete "UUID" (delete "SolutionId"
                       (delete "Resource" (delete "ServiceToken" d))))]> (heap s)) s).
Proof.
  intros Hl. unfold _sanitize_data, mbind, M_bind.
  rewrite (pop_dict s l d) by done.
  erewrite pop_dict by (cbn; apply lookup_insert_eq).
  erewrite pop_dict by (cbn; apply lookup_insert_eq).
  erewrite pop_dict by (cbn; apply lookup_insert_eq).
  cbn. unfold set_heap. cbn. by rewrite !insert_insert_eq.
Qed.

Lemma len_outcome v s :
  (∃ n, len v s = (Ok n, s)) ∨ len v s = (Raise TypeError, s).
Proof.
  unfold len. destruct v as [| | | x | l]; eauto.
  destruct (heap s !! l) as [[d | xs] |]; eauto.
Qed.

(** The state in which the payload is assembled: the sanitized copy and
    the headers are new objects, the properties are where they were. *)
Lemma send_metrics_prepared s l_props props request_type :
  heap s !! l_props = Some (Dict props) →
  let l_data := fresh (dom (heap s)) in
  let data :=
    <["RequestType" := request_type]>
      (delete "UUID" (delete "SolutionId"
         (delete "Resource" (delete "ServiceToken" props)))) in
  let h1 := <[l_data := Dict data]> (heap s) in
  let l_headers := fresh (dom h1) in
  let h2 :=
    <[l_headers := Dict {[ "Content-Type" := VStr "application/json" ]}]> h1 in
  send_metrics utcnow_isoformat requests_post request_type (VRef l_props) s
  = (git ← subscript (VRef l_props) "gitSelected";
     n ← len git;
     let git_selected := if bool_decide (0 < n) then "True" else "False" in
     bucket ← subscript (VRef l_props) "bucketSelected";
     n ← len bucket;
     let existing_bucket_selected := if bool_decide (0 < n) then "True" else "False" in
     solution_id ← subscript (VRef l_props) "SolutionId";
     uuid ← subscript (VRef l_props) "UUID";
     payload ← new_dict
       (<["Data" := VRef l_data]>
       (<["TimeStamp" := VStr utcnow_isoformat]>
       (<["UUID" := uuid]>
       (<["bucketSelected" := VStr existing_bucket_selected]>
       (<["gitSelected" := VStr git_selected]>
       (<["Solution" := solution_id]> ∅))))));
     record (LoggerInfo "Sending payload: " [payload]);;
     response ← post requests_post "https://metrics.awssolutionsbuilder.com/generic"
                  payload (VRef l_headers);
     record (LoggerInfo "Response from metrics endpoint: "
               [VInt (status_code response); VStr (reason response)]))
      (set_heap h2 s)
  ∧ h2 !! l_props = Some (Dict props)
  ∧ h2 !! l_data = Some (Dict data)
  ∧ heap s !! l_data = None
  ∧ heap s !! l_headers = None.
Proof.
  intros Hprops l_data data h1 l_headers h2.
  assert (heap s !! l_data = None) as Hdata
    by apply not_elem_of_dom, is_fresh.
  assert (h1 !! l_headers = None) as Hheaders
    by apply not_elem_of_dom, is_fresh.
  split_and!.
  - unfold send_metrics, mbind at 1 2 3 4, M_bind.
    rewrite (copy_dict s l_props (Dict props)) by done.
    erewrite sanitize_data_dict by (cbn; apply lookup_insert_eq).
    erewrite setitem_dict by (cbn; apply lookup_insert_eq).
    unfold new_dict at 1, set_heap. cbn.
    rewrite !insert_insert_eq. reflexivity.
  - subst h2 l_headers h1 l_data.
    apply lookup_insert_fresh. by apply lookup_insert_fresh.
  - subst h2 l_headers. apply lookup_insert_fresh. apply lookup_insert_eq.
  - done.
  - subst h1. destruct (decide (l_headers = l_data)) as [Heq | Hne].
    + rewrite Heq, lookup_insert_eq in Hheaders. done.
    + by rewrite lookup_insert_ne in Hheaders.
Qed.

Lemma selected_flag (x : string) :
  (if bool_decide (0 < String.length x) then "True" else "False")
  = (if decide (x = EmptyString) then "False" else "True").
Proof.
  destruct x as [| a x]; [reflexivity |].
  cbn [String.length]. case_bool_decide; [| lia].
  by destruct (decide (String a x = EmptyString)).
Qed.

(** X1. An event without [RequestType], without [ResourceProperties] or
    whose properties have no [Resource] makes the handler raise the
    [KeyError] of the first missing key; nothing is logged or changed. *)
Theorem custom_resource_missing_key
    (s : state) (l_event : loc) (event : gmap string value) :
  heap s !! l_event = Some (Dict event) →
  let run := custom_resource uuid4 utcnow_isoformat requests_post (VRef l_event) s in
  (event !! "RequestType" = None → run = (Raise (KeyError "RequestType"), s))
  ∧ (is_Some (event !! "RequestType") → event !! "ResourceProperties" = None →
     run = (Raise (KeyError "ResourceProperties"), s))
  ∧ (∀ l_props props,
       is_Some (event !! "RequestType") →
       event !! "ResourceProperties" = Some (VRef l_props) →
       heap s !! l_props = Some (Dict props) →
       props !! "Resource" = None →
       run = (Raise (KeyError "Resource"), s)).
Proof.
  intros Hev run. subst run. unfold custom_resource, mbind, M_bind. split_and!.
  - intros Htype. unfold subscript at 1. by rewrite Hev, Htype.
  - intros [request_type Htype] Hprops.
    rewrite (subscript_dict s l_event event "RequestType" request_type) by done.
    unfold subscript at 1. by rewrite Hev, Hprops.
  - intros l_props props [request_type Htype] Hprops Hlp Hres.
    rewrite (subscript_dict s l_event event "RequestType" request_type) by done.
    rewrite (subscript_dict s l_event event "ResourceProperties" (VRef l_props)) by done.
    unfold subscript at 1. by rewrite Hlp, Hres.
Qed.

(** X2. When the properties hold [gitSelected], [bucketSelected] (strings),
    [SolutionId] and [UUID], the handler posts once: headers and payload
    are new objects; the payload carries the solution id and UUID of the
    properties, ["True"] or ["False"] for each selection according to the
    string being non-empty, and as [Data] a new dictionary that holds the
    request type and every property except [ServiceToken], [Resource],
    [SolutionId] and [UUID]. What the endpoint answers decides the last
    log entry only. *)
Theorem custom_resource_posts_metrics
    (s : state) (l_event l_props : loc) (event props : gmap string value)
    (request_type solution_id uuid : value) (git bucket : string) :
  heap s !! l_event = Some (Dict event) →
  event !! "RequestType" = Some request_type →
  event !! "ResourceProperties" = Some (VRef l_props) →
  heap s !! l_props = Some (Dict props) →
  props !! "Resource" = Some (VStr "AnonymousMetric") →
  props !! "gitSelected" = Some (VStr git) →
  props !! "bucketSelected" = Some (VStr bucket) →
  props !! "SolutionId" = Some solution_id →
  props !! "UUID" = Some uuid →
  let run := custom_resource uuid4 utcnow_isoformat requests_post (VRef l_event) s in
  ∃ (l_data l_headers l_payload : loc) (data : gmap string value),
    run.1 = Ok ()
    ∧ heap s !! l_data = None ∧ heap s !! l_headers = None
    ∧ heap s !! l_payload = None
    ∧ heap run.2 !! l_headers =
        Some (Dict {[ "Content-Type" := VStr "application/json" ]})
    ∧ heap run.2 !! l_payload =
        Some (Dict
          (<["Data" := VRef l_data]>
          (<["TimeStamp" := VStr utcnow_isoformat]>
          (<["UUID" := uuid]>
          (<["bucketSelected" :=
               VStr (if decide (bucket = EmptyString) then "False" else "True")]>
          (<["gitSelected" := VStr (if decide (git = EmptyString) then "False" else "True")]>
          (<["Solution" := solution_id]> ∅)))))))
    ∧ heap run.2 !! l_data = Some (Dict data)
    ∧ (∀ key,
         data !! key =
           if decide (key = "RequestType") then Some request_type
           else if bool_decide
                     (key ∈ ["ServiceToken"; "Resource"; "SolutionId"; "UUID"])
                then None else props !! key)
    ∧ calls run.2 =
        calls s ++
          [LoggerInfo "Sending payload: " [VRef l_payload];
           RequestsPost "https://metrics.awssolutionsbuilder.com/generic"
             (VRef l_payload) (VRef l_headers);
           match requests_post "https://metrics.awssolutionsbuilder.com/generic"
                   (heap run.2) (VRef l_payload) (VRef l_headers) with
           | Ok response =>
               LoggerInfo "Response from metrics endpoint: "
                 [VInt (status_code response); VStr (reason response)]
           | Raise RequestException => LoggerException "Could not send usage data"
           | Raise _ =>
               LoggerException "Unknown error when trying to send usage data"
           end].
Proof.
  intros Hev Htype Hprops Hlp Hres Hgit Hbucket Hsol Huuid run. subst run.
  rewrite (custom_resource_metrics_branch uuid4 utcnow_isoformat requests_post
             s l_event l_props event props request_type) by done.
  destruct (send_metrics_prepared s l_props props request_type Hlp)
    as (Hrun & Hh2 & Hdata & Hfresh1 & Hfresh2).
  unfold try_except. rewrite Hrun. clear Hrun.
  set (l_data := fresh (dom (heap s))) in *.
  set (data := <["RequestType" := request_type]> _) in *.
  set (h1 := <[l_data := Dict data]> (heap s)) in *.
  set (l_headers := fresh (dom h1)) in *.
  set (h2 := <[l_headers := _]> h1) in *.
  set (s2 := set_heap h2 s).
  assert (heap s2 !! l_props = Some (Dict props)) as Hs2 by done.
  unfold mbind, M_bind.
  rewrite (subscript_dict s2 l_props props "gitSelected" (VStr git)) by done.
  cbn [len].
  rewrite (subscript_dict s2 l_props props "bucketSelected" (VStr bucket)) by done.
  cbn [len].
  rewrite (subscript_dict s2 l_props props "SolutionId" solution_id) by done.
  rewrite (subscript_dict s2 l_props props "UUID" uuid) by done.
  unfold new_dict, record, post, set_heap. cbn.
  set (l_payload := fresh (dom h2)).
  assert (h2 !! l_payload = None) as Hfresh3 by apply not_elem_of_dom, is_fresh.
  assert (heap s !! l_payload = None) as Hfresh3'.
  { destruct (heap s !! l_payload) as [o |] eqn:Hl; [| done].
    assert (h2 !! l_payload = Some o) as Hl'
      by (subst h2 l_headers h1 l_data;
          apply lookup_insert_fresh; by apply lookup_insert_fresh).
    congruence. }
  assert (l_payload ≠ l_headers) as Hne1.
  { intros Heq. subst h2. rewrite Heq, lookup_insert_eq in Hfresh3. done. }
  assert (l_payload ≠ l_data) as Hne2.
  { intros Heq. rewrite Heq in Hfresh3. congruence. }
  rewrite !selected_flag.
  exists l_data, l_headers, l_payload, data.
  set (payload := <["Data" := VRef l_data]> _).
  set (h3 := <[l_payload := Dict payload]> h2).
  assert (∀ key,
         data !! key =
           if decide (key = "RequestType") then Some request_type
           else if bool_decide
                     (key ∈ ["ServiceToken"; "Resource"; "SolutionId"; "UUID"])
                then None else props !! key) as Hkeys.
  { intros key. subst data. destruct (decide (key = "RequestType")) as [-> | Hrt].
    - apply lookup_insert_eq.
    - rewrite lookup_insert_ne by done. case_bool_decide as Hkey.
      + repeat (apply elem_of_cons in Hkey as [-> | Hkey]);
          [.. | by apply elem_of_nil in Hkey];
          repeat first [apply lookup_delete_eq | rewrite lookup_delete_ne by done].
      + rewrite !lookup_delete_ne; [done | ..]; intros <-; apply Hkey;
          apply str_in_spec; reflexivity. }
  assert (h3 !! l_headers =
            Some (Dict {[ "Content-Type" := VStr "application/json" ]})) as Hl1.
  { subst h3 h2. rewrite lookup_insert_ne by done. apply lookup_insert_eq. }
  assert (h3 !! l_payload = Some (Dict payload)) as Hl2
    by (subst h3; apply lookup_insert_eq).
  assert (h3 !! l_data = Some (Dict data)) as Hl3
    by (subst h3; by rewrite lookup_insert_ne).
  destruct (requests_post _ h3 (VRef l_payload) (VRef l_headers))
    as [response | e] eqn:Hpost; [| destruct e];
    cbn; rewrite Hpost;
    (split_and!; [done | done | done | done | exact Hl1 | exact Hl2 | exact Hl3
                 | exact Hkeys | by rewrite <- !app_assoc]).
Qed.

(** X3. When the properties lack one of [gitSelected], [bucketSelected],
    [SolutionId] and [UUID], nothing is posted: the handler returns
    normally and its only call is the log entry of the unknown error. *)
Theorem custom_resource_incomplete_metrics
    (s : state) (l_event l_props : loc) (event props : gmap string value)
    (request_type : value) (key : string) :
  heap s !! l_event = Some (Dict event) →
  event !! "RequestType" = Some request_type →
  event !! "ResourceProperties" = Some (VRef l_props) →
  heap s !! l_props = Some (Dict props) →
  props !! "Resource" = Some (VStr "AnonymousMetric") →
  key ∈ ["gitSelected"; "bucketSelected"; "SolutionId"; "UUID"] →
  props !! key = None →
  let run := custom_resource uuid4 utcnow_isoformat requests_post (VRef l_event) s in
  run.1 = Ok ()
  ∧ calls run.2 =
      calls s ++ [LoggerException "Unknown error when trying to send usage data"]
  ∧ helper_Data run.2 = helper_Data s.
Proof.
  intros Hev Htype Hprops Hlp Hres Hkey Hmissing run. subst run.
  rewrite (custom_resource_metrics_branch uuid4 utcnow_isoformat requests_post
             s l_event l_props event props request_type) by done.
  destruct (send_metrics_prepared s l_props props request_type Hlp)
    as (Hrun & Hh2 & _).
  unfold try_except. rewrite Hrun. clear Hrun.
  set (h2 := <[fresh (dom (<[fresh (dom (heap s)) := _]> (heap s))) := _]> _) in *.
  set (s2 := set_heap h2 s).
  assert (heap s2 !! l_props = Some (Dict props)) as Hs2 by done.
  assert (∀ k, subscript (VRef l_props) k s2 =
               match props !! k with
               | Some x => (Ok x, s2)
               | None => (Raise (KeyError k), s2)
               end) as Hsub
    by (intros k; unfold subscript; by rewrite Hs2).
  unfold mbind, M_bind. rewrite Hsub.
  destruct (props !! "gitSelected") as [git |] eqn:Hgit; [| done].
  destruct (len_outcome git s2) as [[n ->] | ->]; [| done].
  rewrite Hsub.
  destruct (props !! "bucketSelected") as [bucket |] eqn:Hbucket; [| done].
  destruct (len_outcome bucket s2) as [[n' ->] | ->]; [| done].
  rewrite Hsub.
  destruct (props !! "SolutionId") as [solution_id |] eqn:Hsol; [| done].
  rewrite Hsub.
  destruct (props !! "UUID") as [uuid |] eqn:Huuid; [| done].
  repeat (apply elem_of_cons in Hkey as [-> | Hkey]);
    [.. | by apply elem_of_nil in Hkey]; congruence.
Qed.

(** X4. Sanitizing a dictionary a second time changes nothing: the second
    call returns the same object and leaves the state of the first. *)
Theorem sanitize_data_idempotent (s : state) (l : loc) (d : gmap string value) :
  heap s !! l = Some (Dict d) →
  let once := _sanitize_data (VRef l) s in
  once.1 = Ok (VRef l) ∧ _sanitize_data (VRef l) once.2 = once.
Proof.
  intros Hl once. subst once.
  rewrite (sanitize_data_dict s l d) by done. cbn [fst snd]. split; [done |].
  erewrite sanitize_data_dict by (cbn; apply lookup_insert_eq).
  unfold set_heap. cbn. rewrite insert_insert_eq.
  do 4 f_equal. apply map_eq. intros key.
  rewrite !lookup_delete. repeat case_decide; done.
Qed.

(** X16. Whatever the event is, also one that is no dictionary or one the
    handler raises on, the handler changes no dictionary or list that the
    heap held before the call and removes none; it can only add objects. Of
    the module-level [helper.Data], which the UUID branch updates in place,
    it can change the entry ["UUID"] only: every other entry keeps its value
    and no entry is removed. *)
Theorem custom_resource_never_mutates
    (s : state) (event : value) (l : loc) (o : object) :
  heap s !! l = Some o →
  let run := custom_resource uuid4 utcnow_isoformat requests_post event s in
  heap run.2 !! l = Some o
  ∧ dom (heap s) ⊆ dom (heap run.2)
  ∧ (∀ key, key ≠ "UUID" → helper_Data run.2 !! key = helper_Data s !! key)
  ∧ dom (helper_Data s) ⊆ dom (helper_Data run.2).
Proof.
  intros Hl run. split_and!.
  - by apply custom_resource_objects.
  - intros l' [o' Hl']%elem_of_dom. apply elem_of_dom. exists o'.
    by apply custom_resource_objects.
  - intros key Hkey. subst run.
    destruct (custom_resource_helper_data uuid4 utcnow_isoformat requests_post s event)
      as [-> | (_ & _ & _ & _ & ->)]; [done |].
    by rewrite lookup_insert_ne.
  - subst run.
    destruct (custom_resource_helper_data uuid4 utcnow_isoformat requests_post s event)
      as [-> | (_ & _ & _ & _ & ->)]; [done |].
    rewrite dom_insert_L. set_solver.
Qed.

End solution_helper_more.

Lemma custom_resource_never_mutates_witness :
  SolutionHelper.heap
    (SolutionHelper.custom_resource SolutionHelper.sample_uuid4
       SolutionHelper.sample_utcnow SolutionHelper.endpoint_down
       (SolutionHelper.VStr "not an event")
       (SolutionHelper.sample_state "Create" SolutionHelper.sample_properties)).2
    !! 2%positive
  = Some (SolutionHelper.Dict SolutionHelper.sample_properties).
Proof.
  destruct (custom_resource_never_mutates SolutionHelper.sample_uuid4
              SolutionHelper.sample_utcnow SolutionHelper.endpoint_down
              (SolutionHelper.sample_state "Create" SolutionHelper.sample_properties)
              (SolutionHelper.VStr "not an event") 2%positive
              (SolutionHelper.Dict SolutionHelper.sample_properties))
    as (Hobject & _).
  - reflexivity.
  - exact Hobject.
Defined.

Lemma custom_resource_missing_key_witness :
  SolutionHelper.custom_resource SolutionHelper.sample_uuid4
    SolutionHelper.sample_utcnow SolutionHelper.endpoint_ok
    (SolutionHelper.VRef 2%positive)
    (SolutionHelper.sample_state "Create" SolutionHelper.sample_properties)
  = (Raise (KeyError "RequestType"),
     SolutionHelper.sample_state "Create" SolutionHelper.sample_properties).
Proof.
  destruct (custom_resource_missing_key SolutionHelper.sample_uuid4
              SolutionHelper.sample_utcnow SolutionHelper.endpoint_ok
              (SolutionHelper.sample_state "Create" SolutionHelper.sample_properties)
              2%positive SolutionHelper.sample_properties)
    as (Htype & _).
  - reflexivity.
  - apply Htype. reflexivity.
Defined.

Lemma custom_resource_posts_metrics_witness :
  ∃ l_payload : SolutionHelper.loc,
    last (SolutionHelper.calls
            (SolutionHelper.custom_resource SolutionHelper.sample_uuid4
               SolutionHelper.sample_utcnow SolutionHelper.endpoint_down
               (SolutionHelper.VRef 1%positive)
               (SolutionHelper.sample_state "Create"
                  SolutionHelper.sample_properties)).2)
    = Some (SolutionHelper.LoggerException "Could not send usage data")
    ∧ SolutionHelper.heap
        (SolutionHelper.sample_state "Create" SolutionHelper.sample_properties)
        !! l_payload = None.
Proof.
  destruct (custom_resource_posts_metrics SolutionHelper.sample_uuid4
              SolutionHelper.sample_utcnow SolutionHelper.endpoint_down
              (SolutionHelper.sample_state "Create" SolutionHelper.sample_properties)
              1%positive 2%positive (SolutionHelper.sample_event "Create")
              SolutionHelper.sample_properties (SolutionHelper.VStr "Create")
              (SolutionHelper.VStr "SO0136")
              (SolutionHelper.VStr "1b9d6bcd-bbfd-4b2d-9b5d-ab8dfbbd4bed")
              EmptyString "my-assets-bucket")
    as (l_data & l_headers & l_payload & data & _ & _ & _ & Hfresh & _ & _ & _ & _
        & Hcalls); [reflexivity .. |].
  exists l_payload. split; [| exact Hfresh].
  rewrite Hcalls. rewrite last_app. reflexivity.
Defined.

Lemma custom_resource_incomplete_metrics_witness :
  SolutionHelper.calls
    (SolutionHelper.custom_resource SolutionHelper.sample_uuid4
       SolutionHelper.sample_utcnow SolutionHelper.endpoint_ok
       (SolutionHelper.VRef 1%positive)
       (SolutionHelper.sample_state "Delete"
          (delete "UUID" SolutionHelper.sample_properties))).2
  = [SolutionHelper.LoggerException "Unknown error when trying to send usage data"].
Proof.
  destruct (custom_resource_incomplete_metrics SolutionHelper.sample_uuid4
              SolutionHelper.sample_utcnow SolutionHelper.endpoint_ok
              (SolutionHelper.sample_state "Delete"
                 (delete "UUID" SolutionHelper.sample_properties))
              1%positive 2%positive (SolutionHelper.sample_event "Delete")
              (delete "UUID" SolutionHelper.sample_properties)
              (SolutionHelper.VStr "Delete") "UUID")
    as (_ & Hcalls & _).
  - reflexivity.
  - reflexivity.
  - reflexivity.
  - reflexivity.
  - reflexivity.
  - apply str_in_spec. reflexivity.
  - apply lookup_delete_eq.
  - exact Hcalls.
Defined.

Lemma sanitize_data_idempotent_witness :
  let once :=
    SolutionHelper._sanitize_data (SolutionHelper.VRef 2%positive)
      (SolutionHelper.sample_state "Create" SolutionHelper.sample_properties) in
  SolutionHelper._sanitize_data (SolutionHelper.VRef 2%positive) once.2 = once.
Proof.
  apply (sanitize_data_idempotent
           (SolutionHelper.sample_state "Create" SolutionHelper.sample_properties)
           2%positive SolutionHelper.sample_properties).
  reflexivity.
Defined.

(** ** More on the inference function: what is rejected, what is passed on *)

Section inference_more.

Import InferenceLambda.

Variable environ : gmap string string.
Variable json_loads : string → result json.
Variable bytes_decode : list Byte.byte → result string.
Variable sm_invoke_endpoint : InvokeEndpoint → result InvokeEndpointOutput.
Variable LambdaContext : Type.

(** X5. The function under the decorator raises before it reaches the
    endpoint, leaving no call and no log entry, when the event has no
    [body], when the body does not decode, when [ENDPOINT_NAME] is not set
    (checked before the decoded body is looked into), and when the decoded
    dictionary lacks [payload] or [ContentType]. *)
Theorem handler_body_rejects
    (event : gmap string json) (context : LambdaContext) (s : state) :
  let run :=
    handler_body environ json_loads bytes_decode sm_invoke_endpoint LambdaContext
      (JObj event) context s in
  (event !! "body" = None → run = (Raise (KeyError "body"), s))
  ∧ (∀ text e,
       event !! "body" = Some (JStr text) → json_loads text = Raise e →
       run = (Raise e, s))
  ∧ (∀ text event_body,
       event !! "body" = Some (JStr text) → json_loads text = Ok event_body →
       environ !! "ENDPOINT_NAME" = None →
       run = (Raise (KeyError "ENDPOINT_NAME"), s))
  ∧ (∀ text event_body endpoint_name,
       event !! "body" = Some (JStr text) →
       json_loads text = Ok (JObj event_body) →
       environ !! "ENDPOINT_NAME" = Some endpoint_name →
       (event_body !! "payload" = None → run = (Raise (KeyError "payload"), s))
       ∧ (is_Some (event_body !! "payload") → event_body !! "ContentType" = None →
          run = (Raise (KeyError "ContentType"), s))).
Proof.
  cbv zeta.
  unfold handler_body, invoke, mbind, M_bind, subscript, loads, os_environ, getitem.
  split_and!.
  - by intros ->.
  - intros text e -> Hloads. cbn. by rewrite Hloads.
  - intros text event_body -> Hloads Hname. cbn. by rewrite Hloads, Hname.
  - intros text event_body endpoint_name -> Hloads Hname. cbn.
    rewrite Hloads, Hname. split.
    + by intros ->.
    + intros [payload ->] Htype. cbn. by rewrite Htype.
Qed.

(** X6. Once the request is made, an exception of the endpoint is passed
    on as it is after that single call, with nothing logged; an exception
    while decoding the response's body is passed on after the response has
    been logged. *)
Theorem handler_body_passes_errors_on
    (event event_body : gmap string json) (context : LambdaContext) (s : state)
    (text endpoint_name : string) (payload content_type : json) :
  event !! "body" = Some (JStr text) →
  json_loads text = Ok (JObj event_body) →
  event_body !! "payload" = Some payload →
  event_body !! "ContentType" = Some content_type →
  environ !! "ENDPOINT_NAME" = Some endpoint_name →
  let request :=
    {| EndpointName := endpoint_name; Body := payload; ContentType := content_type |} in
  let run :=
    handler_body environ json_loads bytes_decode sm_invoke_endpoint LambdaContext
      (JObj event) context s in
  (∀ e, sm_invoke_endpoint request = Raise e →
        run = (Raise e, s ++ [SdkInvokeEndpoint request]))
  ∧ (∀ response e,
       sm_invoke_endpoint request = Ok response →
       bytes_decode (Body_read response) = Raise e →
       run = (Raise e, s ++ [SdkInvokeEndpoint request; LoggerInfoResponse response])).
Proof.
  intros Hbody Hloads Hpayload Htype Hname. cbv zeta.
  unfold handler_body, invoke, mbind, M_bind, subscript, loads, os_environ, getitem,
    invoke_endpoint, read_decode, record.
  rewrite Hbody. cbn. rewrite Hloads, Hname, Hpayload. cbn. rewrite Htype. cbn.
  split.
  - intros e ->. reflexivity.
  - intros response e -> Hdecode. cbn. rewrite Hdecode. cbn.
    by rewrite <- app_assoc.
Qed.

(** X7. Whatever the event, the function asks the endpoint at most once,
    and only the endpoint named by [ENDPOINT_NAME], with the payload and
    content type of the decoded body: every other call in the final state
    was there before. *)
Theorem handler_body_only_the_named_endpoint
    (event : json) (context : LambdaContext) (s : state) :
  let run :=
    handler_body environ json_loads bytes_decode sm_invoke_endpoint LambdaContext
      event context s in
  run.2 = s
  ∨ ∃ request rest,
      run.2 = s ++ SdkInvokeEndpoint request :: rest
      ∧ Forall (λ c, ∀ r, c ≠ SdkInvokeEndpoint r) rest
      ∧ environ !! "ENDPOINT_NAME" = Some (EndpointName request)
      ∧ ∃ (fields event_body : gmap string json) (text : string),
          event = JObj fields
          ∧ fields !! "body" = Some (JStr text)
          ∧ json_loads text = Ok (JObj event_body)
          ∧ event_body !! "payload" = Some (Body request)
          ∧ event_body !! "ContentType" = Some (ContentType request).
Proof.
  cbv zeta.
  unfold handler_body, invoke, mbind, M_bind, subscript, loads, os_environ, getitem,
    invoke_endpoint, read_decode, record.
  destruct event as [| | | | | | fields]; try (by left).
  destruct (fields !! "body") as [body |] eqn:Hbody; [| by left].
  destruct body as [| | | | text | |]; try (by left). cbn.
  destruct (json_loads text) as [decoded | e] eqn:Hloads; [| by left].
  destruct (environ !! "ENDPOINT_NAME") as [endpoint_name |] eqn:Hname; [| by left].
  destruct decoded as [| | | | | | event_body]; try (by left).
  destruct (event_body !! "payload") as [payload |] eqn:Hpayload; [| by left]. cbn.
  destruct (event_body !! "ContentType") as [content_type |] eqn:Htype; [| by left].
  cbn. right.
  exists {| EndpointName := endpoint_name; Body := payload;
            ContentType := content_type |}.
  destruct (sm_invoke_endpoint _) as [response | e]; cbn.
  - destruct (bytes_decode _) as [predictions | e]; cbn; rewrite <- ?app_assoc;
      (eexists; split_and!; [reflexivity | repeat constructor; discriminate | done |]);
      by exists fields, event_body, text.
  - exists []. split_and!; [reflexivity | constructor | done |].
    by exists fields, event_body, text.
Qed.

End inference_more.

Lemma handler_body_passes_errors_on_witness :
  let throttled (_ : InferenceLambda.InvokeEndpoint)
      : result InferenceLambda.InvokeEndpointOutput :=
    Raise (OtherException "ThrottlingException") in
  InferenceLambda.handler_body InferenceLambda.sample_environ
    InferenceLambda.sample_json_loads InferenceLambda.sample_bytes_decode
    throttled () InferenceLambda.sample_api_event () []
  = (Raise (OtherException "ThrottlingException"),
     [InferenceLambda.SdkInvokeEndpoint
        {| InferenceLambda.EndpointName := "mlopssagemakerendpoint-1";
           InferenceLambda.Body := InferenceLambda.JStr "1,2,3";
           InferenceLambda.ContentType := InferenceLambda.JStr "text/csv" |}]).
Proof.
  cbv zeta.
  destruct (handler_body_passes_errors_on InferenceLambda.sample_environ
              InferenceLambda.sample_json_loads InferenceLambda.sample_bytes_decode
              (λ _, Raise (OtherException "ThrottlingException")) ()
              (<["body" := InferenceLambda.JStr InferenceLambda.sample_body]>
                 (<["httpMethod" := InferenceLambda.JStr "POST"]> ∅))
              (<["ContentType" := InferenceLambda.JStr "text/csv"]>
                 (<["payload" := InferenceLambda.JStr "1,2,3"]> ∅))
              () [] InferenceLambda.sample_body "mlopssagemakerendpoint-1"
              (InferenceLambda.JStr "1,2,3") (InferenceLambda.JStr "text/csv"))
    as (Hendpoint & _); [reflexivity .. |].
  apply (Hendpoint (OtherException "ThrottlingException")). reflexivity.
Defined.

Lemma handler_body_rejects_witness :
  InferenceLambda.handler_body ∅ InferenceLambda.sample_json_loads
    InferenceLambda.sample_bytes_decode InferenceLambda.sample_endpoint ()
    InferenceLambda.sample_api_event () []
  = (Raise (KeyError "ENDPOINT_NAME"), []).
Proof.
  destruct (handler_body_rejects ∅ InferenceLambda.sample_json_loads
              InferenceLambda.sample_bytes_decode InferenceLambda.sample_endpoint ()
              (<["body" := InferenceLambda.JStr InferenceLambda.sample_body]>
                 (<["httpMethod" := InferenceLambda.JStr "POST"]> ∅)) () [])
    as (_ & _ & Hname & _).
  eapply Hname; reflexivity.
Defined.

(** ** More on IAM statements and custom resources *)

Lemma string_length_app (a b : string) :
  String.length (a +:+ b) = String.length a + String.length b.
Proof.
  induction a as [| c a IH]; [reflexivity |].
  change (S (String.length (a +:+ b)) = S (String.length a + String.length b)).
  by rewrite IH.
Qed.

Lemma string_app_inj_r (a b t : string) : a +:+ t = b +:+ t → a = b.
Proof.
  revert b. induction a as [| c a IH]; intros [| c' b] Heq.
  - done.
  - apply (f_equal String.length) in Heq.
    rewrite !string_length_app in Heq. cbn in Heq. lia.
  - apply (f_equal String.length) in Heq.
    rewrite !string_length_app in Heq. cbn in Heq. lia.
  - injection Heq as -> Heq. f_equal. by apply IH.
Qed.

Section sagemaker_policies.

Import IamPolicies SageMakerPolicies.

Variables PARTITION REGION ACCOUNT_ID : string.
Variable conditions : string → bool.

(** Settles [scoped] for a statement with explicit lists. *)
Ltac scoped_lists :=
  split; cbn [actions resources];
  repeat first [apply Forall_nil_2 | apply Forall_cons_2];
  eexists; reflexivity.

(** X8. Every SageMaker statement of the pipelines, whatever names it is
    given, allows SageMaker actions only and names only SageMaker
    resources of the stack's own partition, region and account; none
    names the resource ["*"]. *)
Theorem sagemaker_statements_scoped
    (is_realtime_pipeline : bool)
    (endpoint_name_parameter : CfnParameter) (endpoint_name_provided : CfnCondition)
    (baseline_job_name monitoring_schedule_name endpoint_name
     model_package_group_name : string) :
  Forall (scoped PARTITION REGION ACCOUNT_ID)
    [ sagemaker_policy_statement PARTITION REGION ACCOUNT_ID conditions
        is_realtime_pipeline endpoint_name_parameter endpoint_name_provided;
      sagemaker_baseline_job_policy PARTITION REGION ACCOUNT_ID baseline_job_name;
      batch_transform_policy PARTITION REGION ACCOUNT_ID;
      sagemaker_monitor_policy_statement PARTITION REGION ACCOUNT_ID
        baseline_job_name monitoring_schedule_name endpoint_name;
      sagemaker_tags_policy_statement PARTITION REGION ACCOUNT_ID;
      model_registry_policy_statement PARTITION REGION ACCOUNT_ID
        model_package_group_name ]
  ∧ Forall (λ statement, "*" ∉ resources statement)
      [ sagemaker_policy_statement PARTITION REGION ACCOUNT_ID conditions
          is_realtime_pipeline endpoint_name_parameter endpoint_name_provided;
        sagemaker_baseline_job_policy PARTITION REGION ACCOUNT_ID baseline_job_name;
        batch_transform_policy PARTITION REGION ACCOUNT_ID;
        sagemaker_monitor_policy_statement PARTITION REGION ACCOUNT_ID
          baseline_job_name monitoring_schedule_name endpoint_name;
        sagemaker_tags_policy_statement PARTITION REGION ACCOUNT_ID;
        model_registry_policy_statement PARTITION REGION ACCOUNT_ID
          model_package_group_name ].
Proof.
  assert (Forall (scoped PARTITION REGION ACCOUNT_ID)
    [ sagemaker_policy_statement PARTITION REGION ACCOUNT_ID conditions
        is_realtime_pipeline endpoint_name_parameter endpoint_name_provided;
      sagemaker_baseline_job_policy PARTITION REGION ACCOUNT_ID baseline_job_name;
      batch_transform_policy PARTITION REGION ACCOUNT_ID;
      sagemaker_monitor_policy_statement PARTITION REGION ACCOUNT_ID
        baseline_job_name monitoring_schedule_name endpoint_name;
      sagemaker_tags_policy_statement PARTITION REGION ACCOUNT_ID;
      model_registry_policy_statement PARTITION REGION ACCOUNT_ID
        model_package_group_name ]) as Hscoped.
  { repeat first [apply Forall_nil_2 | apply Forall_cons_2].
    - unfold sagemaker_policy_statement, scoped, SageMakerPolicies.sagemaker_arn_prefix.
      destruct is_realtime_pipeline; scoped_lists.
    - unfold sagemaker_baseline_job_policy, scoped. scoped_lists.
    - unfold batch_transform_policy, scoped. scoped_lists.
    - unfold sagemaker_monitor_policy_statement, scoped. scoped_lists.
    - unfold sagemaker_tags_policy_statement, scoped. scoped_lists.
    - unfold model_registry_policy_statement, scoped. scoped_lists. }
  split; [exact Hscoped |].
  eapply Forall_impl; [exact Hscoped |].
  intros statement [_ Hresources] Hstar.
  rewrite Forall_forall in Hresources.
  destruct (Hresources _ Hstar) as [rest Hrest].
  unfold SageMakerPolicies.sagemaker_arn_prefix, IamPolicies.sagemaker_arn_prefix in Hrest.
  discriminate Hrest.
Qed.

(** X9. The resource policy of a model package group has one statement;
    it allows the actions and resources of the in-account registry
    statement, and its principals are the root of each listed account, in
    the order of the list, and of no other account. *)
Theorem model_package_group_policy_principals
    (model_package_group_name : string) (accounts_list : list string) :
  ∃ statement,
    Statement (model_package_group_policy PARTITION REGION ACCOUNT_ID
                 model_package_group_name accounts_list) = [statement]
    ∧ Effect statement = "Allow"
    ∧ Action statement =
        actions (model_registry_policy_statement PARTITION REGION ACCOUNT_ID
                   model_package_group_name)
    ∧ Resource statement =
        resources (model_registry_policy_statement PARTITION REGION ACCOUNT_ID
                     model_package_group_name)
    ∧ length (Principal_AWS statement) = length accounts_list
    ∧ (∀ i account_id,
         accounts_list !! i = Some account_id →
         Principal_AWS statement !! i
           = Some ("arn:" +:+ PARTITION +:+ ":iam::" +:+ account_id +:+ ":root"))
    ∧ (∀ account_id,
         "arn:" +:+ PARTITION +:+ ":iam::" +:+ account_id +:+ ":root"
           ∈ Principal_AWS statement
         ↔ account_id ∈ accounts_list).
Proof.
  eexists. split; [reflexivity |]. cbn.
  split_and!; try reflexivity.
  - apply length_map.
  - intros i account_id Hi. by rewrite list_lookup_fmap, Hi.
  - intros account_id. rewrite list_elem_of_fmap. split.
    + intros (account & Heq & Hin).
      do 3 apply String.app_inj in Heq. apply string_app_inj_r in Heq.
      by subst.
    + intros Hin. by exists account_id.
Qed.

End sagemaker_policies.

(** ** Properties of the custom resource that invokes a function *)

Section custom_resources.

Import CustomResources.

Variable arn_of_function : string → string.

(** X10. The properties of the invoking custom resource hold every
    property the caller gives, with the caller's value, also under the
    keys [function_name] and [message]; these two get the function's name
    and the invocation message only when the caller gives none, and no
    other key is added. *)
Theorem invoke_lambda_custom_resource_properties
    (id lambda_function_arn lambda_function_name : string)
    (custom_resource_properties : gmap string string) :
  let resource :=
    create_invoke_lambda_custom_resource arn_of_function id lambda_function_arn
      lambda_function_name custom_resource_properties in
  (∀ key v, custom_resource_properties !! key = Some v →
            properties resource !! key = Some v)
  ∧ (custom_resource_properties !! "function_name" = None →
     properties resource !! "function_name" = Some lambda_function_name)
  ∧ (custom_resource_properties !! "message" = None →
     properties resource !! "message"
       = Some ("Invoking lambda function: " +:+ lambda_function_name))
  ∧ dom (properties resource)
      = dom custom_resource_properties ∪ {[ "function_name"; "message" ]}.
Proof.
  cbv zeta. unfold create_invoke_lambda_custom_resource. cbn [properties].
  split_and!.
  - intros key v Hkey. by apply lookup_union_Some_l.
  - intros Hnone. rewrite lookup_union_r by done.
    rewrite lookup_insert_ne by done. apply lookup_insert_eq.
  - intros Hnone. rewrite lookup_union_r by done. apply lookup_insert_eq.
  - rewrite dom_union_L, !dom_insert_L, dom_empty_L. set_solver.
Qed.

(** X11. CloudFormation calls the helper with the declared properties of
    a custom resource and its service token. With those of the unique-id
    resource the helper draws a UUID and stores it on [Create], and does
    nothing at all on any other request type. *)
Theorem uuid_custom_resource_reaches_uuid_branch
    (uuid4 : nat → string) (utcnow_isoformat : string)
    (requests_post :
       string → gmap SolutionHelper.loc SolutionHelper.object →
       SolutionHelper.value → SolutionHelper.value → result SolutionHelper.Response)
    (create_model_registry helper_function_arn request_type : string)
    (s : SolutionHelper.state) (l_event l_props : SolutionHelper.loc)
    (event : gmap string SolutionHelper.value) :
  let resource := create_uuid_custom_resource create_model_registry helper_function_arn in
  SolutionHelper.heap s !! l_event = Some (SolutionHelper.Dict event) →
  event !! "RequestType" = Some (SolutionHelper.VStr request_type) →
  event !! "ResourceProperties" = Some (SolutionHelper.VRef l_props) →
  SolutionHelper.heap s !! l_props =
    Some (SolutionHelper.Dict
            (SolutionHelper.VStr <$>
               <["ServiceToken" := service_token resource]> (properties resource))) →
  let run :=
    SolutionHelper.custom_resource uuid4 utcnow_isoformat requests_post
      (SolutionHelper.VRef l_event) s in
  let random_id := uuid4 (SolutionHelper.uuids_drawn s) in
  (request_type = "Create" →
   run.1 = Ok ()
   ∧ SolutionHelper.helper_Data run.2 =
       <["UUID" := SolutionHelper.VStr random_id]> (SolutionHelper.helper_Data s)
   ∧ SolutionHelper.heap run.2 = SolutionHelper.heap s)
  ∧ (request_type ≠ "Create" → run = (Ok (), s)).
Proof.
  intros resource Hev Htype Hprops Hlp run random_id. subst run.
  unfold SolutionHelper.custom_resource, mbind, M_bind.
  rewrite (subscript_dict s l_event event "RequestType"
             (SolutionHelper.VStr request_type)) by done.
  rewrite (subscript_dict s l_event event "ResourceProperties"
             (SolutionHelper.VRef l_props)) by done.
  erewrite (subscript_dict s l_props _ "Resource" (SolutionHelper.VStr "UUID"));
    [| exact Hlp |].
  - cbn [SolutionHelper.eq_str String.eqb Ascii.eqb Bool.eqb andb].
    destruct (String.eqb_spec request_type "Create") as [-> | Hne].
    + split; [| done]. intros _. by cbn.
    + split; [done |]. intros _. reflexivity.
  - subst resource. cbn [properties service_token create_uuid_custom_resource].
    rewrite lookup_fmap. by map_lookup.
Qed.

End custom_resources.

Lemma invoke_lambda_custom_resource_properties_witness :
  let resource :=
    CustomResources.create_invoke_lambda_custom_resource
      (λ id, "arn:aws:lambda:us-east-1:123456789012:function:" +:+ id)
      "InvokeBaseline" "arn:aws:lambda:us-east-1:123456789012:function:baseline"
      "baseline"
      (<["function_name" := "override"]> (<["Resource" := "InvokeLambda"]> ∅)) in
  CustomResources.properties resource !! "function_name" = Some "override"
  ∧ CustomResources.properties resource !! "message"
    = Some "Invoking lambda function: baseline".
Proof.
  cbv zeta.
  destruct (invoke_lambda_custom_resource_properties
              (λ id, "arn:aws:lambda:us-east-1:123456789012:function:" +:+ id)
              "InvokeBaseline"
              "arn:aws:lambda:us-east-1:123456789012:function:baseline" "baseline"
              (<["function_name" := "override"]> (<["Resource" := "InvokeLambda"]> ∅)))
    as (Hkept & _ & Hmessage & _).
  split.
  - apply Hkept. reflexivity.
  - apply Hmessage. reflexivity.
Defined.

Lemma model_package_group_policy_principals_witness :
  ∃ statement,
    SageMakerPolicies.Statement
      (SageMakerPolicies.model_package_group_policy "aws" "us-east-1" "111111111111"
         "xgboost" ["222222222222"; "333333333333"]) = [statement]
    ∧ SageMakerPolicies.Principal_AWS statement !! 1
      = Some "arn:aws:iam::333333333333:root".
Proof.
  destruct (model_package_group_policy_principals "aws" "us-east-1" "111111111111"
              "xgboost" ["222222222222"; "333333333333"])
    as (statement & Hst & _ & _ & _ & _ & Hlookup & _).
  exists statement. split; [exact Hst |].
  apply (Hlookup 1 "333333333333"). reflexivity.
Defined.

Lemma uuid_custom_resource_reaches_uuid_branch_witness :
  let properties : gmap string SolutionHelper.value :=
    SolutionHelper.VStr <$>
      <["ServiceToken" := "arn:aws:lambda:us-east-1:123456789012:function:helper"]>
        (CustomResources.properties
           (CustomResources.create_uuid_custom_resource "No"
              "arn:aws:lambda:us-east-1:123456789012:function:helper")) in
  SolutionHelper.custom_resource SolutionHelper.sample_uuid4
    SolutionHelper.sample_utcnow SolutionHelper.endpoint_ok
    (SolutionHelper.VRef 1%positive) (SolutionHelper.sample_state "Update" properties)
  = (Ok (), SolutionHelper.sample_state "Update" properties).
Proof.
  cbv zeta.
  destruct (uuid_custom_resource_reaches_uuid_branch SolutionHelper.sample_uuid4
              SolutionHelper.sample_utcnow SolutionHelper.endpoint_ok
              "No" "arn:aws:lambda:us-east-1:123456789012:function:helper" "Update"
              (SolutionHelper.sample_state "Update"
                 (SolutionHelper.VStr <$>
                    <["ServiceToken" :=
                        "arn:aws:lambda:us-east-1:123456789012:function:helper"]>
                      (CustomResources.properties
                         (CustomResources.create_uuid_custom_resource "No"
                            "arn:aws:lambda:us-east-1:123456789012:function:helper"))))
              1%positive 2%positive (SolutionHelper.sample_event "Update"))
    as (_ & Hother); [reflexivity .. |].
  apply Hother. discriminate.
Defined.

(** ** More on the fixtures: events against required keys and template parameters *)

Section fixtures_more.

Import OrchestratorFixtures TemplateFixtures.

(** What the test environment holds under the names the templates read. *)
Lemma mock_env_variables_lookup_template (environ : gmap string string) :
  let environ := mock_env_variables environ in
  environ !! "NOTIFICATION_EMAIL" = Some "test@example.com"
  ∧ environ !! "BLUEPRINT_BUCKET" = Some "testbucket"
  ∧ environ !! "ASSETS_BUCKET" = Some "testassetsbucket".
Proof.
  unfold mock_env_variables. cbn zeta.
  split_and!; repeat (rewrite lookup_insert_ne by done); apply lookup_insert_eq.
Qed.

(** X12. The event built for a pipeline type holds every key the required
    list of that type asks for, for both values of each flag and, for the
    realtime builtin type, whether the model registry is used or not. *)
Theorem api_byom_event_has_required_keys (environ : gmap string string)
    (is_multi endpint_name_provided : bool) (use_model_registry : string) :
  Forall
    (λ '(pipeline_type, required_keys),
       ∃ event : gmap string field,
         api_byom_event (mock_env_variables environ) pipeline_type is_multi
           endpint_name_provided = Ok event
         ∧ Forall (λ key, is_Some (event !! key)) required_keys)
    [ ("byom_realtime_builtin", required_api_byom_realtime_builtin use_model_registry);
      ("byom_batch_builtin", required_api_byom_batch_builtin);
      ("byom_realtime_custom", required_api_byom_realtime_custom);
      ("byom_batch_custom", required_api_byom_batch_custom) ].
Proof.
  destruct (mock_env_variables_lookup environ)
    as (Hinst & Hbatch & Hcapture & Hartifact & Hpackage & Hdata).
  unfold api_byom_event, getitem, required_api_byom_realtime_builtin,
    required_api_byom_batch_builtin, required_api_byom_realtime_custom,
    required_api_byom_batch_custom.
  rewrite Hinst, Hbatch, Hcapture, Hartifact, Hpackage, Hdata.
  clear Hinst Hbatch Hcapture Hartifact Hpackage Hdata.
  destruct (String.eqb use_model_registry "Yes");
    destruct is_multi, endpint_name_provided;
    each_key; run_fixture;
    (eexists; split; [reflexivity |]);
    cbn [app]; each_key; vm_compute; by eexists.
Qed.

(** X13. On the event of each of the four pipeline types the common
    template parameters are built, with their six keys; the builtin
    parameters are built exactly for the two builtin types and the batch
    builtin ones exactly for the batch builtin type; the two custom
    templates read [custom_model_container], which no such event holds,
    and raise its [KeyError] for every type. *)
Theorem template_parameters_of_byom_events (environ : gmap string string)
    (pipeline_type : string) (is_multi endpint_name_provided : bool) :
  pipeline_type ∈ ["byom_realtime_builtin"; "byom_realtime_custom";
                   "byom_batch_builtin"; "byom_batch_custom"] →
  let on_event (template : gmap string string → gmap string field →
                           result (list parameter)) :=
    event ← api_byom_event (mock_env_variables environ) pipeline_type is_multi
              endpint_name_provided;
    template (mock_env_variables environ) event in
  (parameters ← on_event template_parameters_common;
   Ok (get_parameters_keys parameters))
  = Ok ["NOTIFICATIONEMAIL"; "BLUEPRINTBUCKET"; "ASSETSBUCKET"; "MODELNAME";
        "MODELARTIFACTLOCATION"; "INFERENCEINSTANCE"]
  ∧ (returned (on_event template_parameters_realtime_builtin) = true ↔
     pipeline_type ∈ ["byom_realtime_builtin"; "byom_batch_builtin"])
  ∧ (returned (on_event template_parameters_batch_builtin) = true ↔
     pipeline_type ∈ ["byom_batch_builtin"])
  ∧ on_event template_parameters_realtime_custom
    = Raise (KeyError "custom_model_container")
  ∧ on_event template_parameters_batch_custom
    = Raise (KeyError "custom_model_container").
Proof.
  intros Htype.
  destruct (mock_env_variables_lookup environ)
    as (Hinst & Hbatch & Hcapture & Hartifact & Hpackage & Hdata).
  destruct (mock_env_variables_lookup_template environ)
    as (Hemail & Hblueprint & Hassets).
  cbv zeta.
  unfold template_parameters_batch_custom, template_parameters_realtime_custom,
    template_parameters_batch_builtin, template_parameters_realtime_builtin,
    template_parameters_common, api_byom_event, getitem.
  rewrite Hinst, Hbatch, Hcapture, Hartifact, Hpackage, Hdata,
    Hemail, Hblueprint, Hassets.
  clear Hinst Hbatch Hcapture Hartifact Hpackage Hdata Hemail Hblueprint Hassets.
  rewrite <- !str_in_spec.
  repeat (apply elem_of_cons in Htype as [-> | Htype]);
    [.. | by apply elem_of_nil in Htype];
    destruct is_multi, endpint_name_provided;
    vm_compute; split_and!; done.
Qed.

Lemma template_parameters_of_byom_events_witness :
  let environ := mock_env_variables ∅ in
  (event ← api_byom_event environ "byom_realtime_custom" false true;
   template_parameters_realtime_custom environ event)
  = Raise (KeyError "custom_model_container").
Proof.
  destruct (template_parameters_of_byom_events ∅ "byom_realtime_custom" false true)
    as (_ & _ & _ & Hcustom & _).
  - apply str_in_spec. reflexivity.
  - exact Hcustom.
Defined.

(** X14. Whatever the environment and the event, when the batch templates
    return, their parameter keys are the fixed lists below, no key comes
    twice, every parameter is flagged [UsePreviousValue], and dropping the
    last parameter gives what the realtime template of the same kind
    returns. *)
Theorem template_parameters_keys (environ : gmap string string)
    (event : gmap string field) :
  (∀ parameters,
     template_parameters_batch_builtin environ event = Ok parameters →
     get_parameters_keys parameters =
       ["NOTIFICATIONEMAIL"; "BLUEPRINTBUCKET"; "ASSETSBUCKET"; "MODELNAME";
        "MODELARTIFACTLOCATION"; "INFERENCEINSTANCE"; "MODELFRAMEWORK";
        "MODELFRAMEWORKVERSION"; "BATCHINFERENCEDATA"]
     ∧ NoDup (get_parameters_keys parameters)
     ∧ Forall (λ p, UsePreviousValue p = true) parameters
     ∧ template_parameters_realtime_builtin environ event
       = Ok (removelast parameters))
  ∧ (∀ parameters,
       template_parameters_batch_custom environ event = Ok parameters →
       get_parameters_keys parameters =
         ["NOTIFICATIONEMAIL"; "BLUEPRINTBUCKET"; "ASSETSBUCKET"; "MODELNAME";
          "MODELARTIFACTLOCATION"; "INFERENCEINSTANCE"; "CUSTOMCONTAINER";
          "BATCHINFERENCEDATA"]
       ∧ NoDup (get_parameters_keys parameters)
       ∧ Forall (λ p, UsePreviousValue p = true) parameters
       ∧ template_parameters_realtime_custom environ event
         = Ok (removelast parameters)).
Proof.
  unfold template_parameters_batch_custom, template_parameters_realtime_custom,
    template_parameters_batch_builtin, template_parameters_realtime_builtin,
    template_parameters_common, getitem.
  split; intros parameters Hrun;
    destruct (environ !! "NOTIFICATION_EMAIL"); try done;
    destruct (environ !! "BLUEPRINT_BUCKET"); try done;
    destruct (environ !! "ASSETS_BUCKET"); try done;
    destruct (event !! "model_name"); try done;
    destruct (event !! "model_artifact_location"); try done;
    destruct (event !! "inference_instance"); try done;
    destruct (event !! "model_framework"); try done;
    destruct (event !! "model_framework_version"); try done;
    destruct (event !! "custom_model_container"); try done;
    destruct (event !! "batch_inference_data"); try done;
    cbn in Hrun; injection Hrun as <-;
    (split_and!;
     [ reflexivity
     | apply (bool_decide_unpack _); vm_compute; exact I
     | repeat constructor
     | reflexivity ]).
Qed.

(** X15. In the event of a pipeline type, [endpoint_name] is there exactly
    when it is asked for and the type is a realtime one. The value of a key
    is a dictionary per stage, with the stages [dev], [staging] and [prod],
    exactly when the event is for a multi-account deployment and the key is
    one of [inference_instance], [batch_job_output_location],
    [data_capture_location] and [endpoint_name]; every other value is a
    string. *)
Theorem api_byom_event_values (environ : gmap string string)
    (pipeline_type : string) (is_multi endpint_name_provided : bool) :
  pipeline_type ∈ ["byom_realtime_builtin"; "byom_realtime_custom";
                   "byom_batch_builtin"; "byom_batch_custom"] →
  ∃ event : gmap string field,
    api_byom_event (mock_env_variables environ) pipeline_type is_multi
      endpint_name_provided = Ok event
    ∧ (is_Some (event !! "endpoint_name") ↔
       endpint_name_provided = true
       ∧ pipeline_type ∈ ["byom_realtime_builtin"; "byom_realtime_custom"])
    ∧ map_Forall
        (λ key value,
           match value with
           | PerStage stages =>
               is_multi = true
               ∧ key ∈ ["inference_instance"; "batch_job_output_location";
                        "data_capture_location"; "endpoint_name"]
               ∧ dom stages = {[ "dev"; "staging"; "prod" ]}
           | Str _ =>
               is_multi = false
               ∨ key ∉ ["inference_instance"; "batch_job_output_location";
                        "data_capture_location"; "endpoint_name"]
           end)
        event.
Proof.
  intros Htype.
  destruct (mock_env_variables_lookup environ)
    as (Hinst & Hbatch & Hcapture & Hartifact & Hpackage & Hdata).
  unfold api_byom_event, getitem.
  rewrite Hinst, Hbatch, Hcapture, Hartifact, Hpackage, Hdata.
  clear Hinst Hbatch Hcapture Hartifact Hpackage Hdata.
  repeat (apply elem_of_cons in Htype as [-> | Htype]);
    [.. | by apply elem_of_nil in Htype];
    destruct is_multi, endpint_name_provided;
    run_fixture;
    (eexists; split; [reflexivity |]);
    (split;
     [ rewrite <- str_in_spec; vm_compute;
       first
         [ split; [intros _; by split | intros _; by eexists]
         | split; [by intros [? ?] | by intros [? ?]] ]
     | repeat (apply map_Forall_insert_2; [| ]); try apply map_Forall_empty;
       unfold stages; rewrite <- ?str_in_false, <- ?str_in_spec;
       first
         [ by left
         | right; reflexivity
         | split_and!;
           [ reflexivity | reflexivity
           | rewrite !dom_insert_L, dom_empty_L; set_solver ] ] ]).
Qed.

End fixtures_more.

Lemma api_byom_event_values_witness :
  ∃ event : gmap string OrchestratorFixtures.field,
    OrchestratorFixtures.api_byom_event (OrchestratorFixtures.mock_env_variables ∅)
      "byom_batch_builtin" true true = Ok event
    ∧ ¬ is_Some (event !! "endpoint_name").
Proof.
  destruct (api_byom_event_values ∅ "byom_batch_builtin" true true)
    as (event & Hrun & Hendpoint & _).
  - apply str_in_spec. reflexivity.
  - exists event. split; [exact Hrun |].
    intros Hsome. apply Hendpoint in Hsome as [_ Hin].
    apply str_in_spec in Hin. discriminate.
Defined.

Lemma template_parameters_keys_witness :
  let event : gmap string OrchestratorFixtures.field :=
    <["batch_inference_data" := OrchestratorFixtures.Str "inference/data.csv"]>
    (<["custom_model_container" := OrchestratorFixtures.Str "custom/model.zip"]>
    (<["inference_instance" := OrchestratorFixtures.Str "ml.m5.large"]>
    (<["model_artifact_location" := OrchestratorFixtures.Str "model.tar.gz"]>
    (<["model_name" := OrchestratorFixtures.Str "testmodel"]> ∅)))) in
  ∃ parameters,
    TemplateFixtures.template_parameters_batch_custom
      (OrchestratorFixtures.mock_env_variables ∅) event = Ok parameters
    ∧ length parameters = 8
    ∧ NoDup (TemplateFixtures.get_parameters_keys parameters).
Proof.
  cbv zeta.
  destruct (template_parameters_keys (OrchestratorFixtures.mock_env_variables ∅)
              (<["batch_inference_data" := OrchestratorFixtures.Str "inference/data.csv"]>
              (<["custom_model_container" := OrchestratorFixtures.Str "custom/model.zip"]>
              (<["inference_instance" := OrchestratorFixtures.Str "ml.m5.large"]>
              (<["model_artifact_location" := OrchestratorFixtures.Str "model.tar.gz"]>
              (<["model_name" := OrchestratorFixtures.Str "testmodel"]> ∅))))))
    as [_ Hcustom].
  destruct (TemplateFixtures.template_parameters_batch_custom _ _)
    as [parameters | e] eqn:Hrun; [| vm_compute in Hrun; discriminate].
  destruct (Hcustom parameters eq_refl) as (Hkeys & Hnodup & _).
  exists parameters. split; [reflexivity |]. split; [| exact Hnodup].
  unfold TemplateFixtures.get_parameters_keys in Hkeys.
  by rewrite <- (length_map TemplateFixtures.ParameterKey), Hkeys.
Defined.
